(** * GOES-19 convective analysis toolkit: download, preprocess, plot

    A shallow embedding of the three modules of the repository

      - [src/download_goes.py]   (the Fetcher),
      - [src/preprocess_goes.py] (the Scene Preparer),
      - [src/plot_goes.py]       (the Renderer),

    and the properties of them that the specification states.

    Python strings are [string].  A [pathlib.Path] is the list of its
    components, read from one base directory; the file system is a finite
    map from resolved paths to nodes (regular files with their bytes,
    directories with a write permission).  The functions of the Fetcher
    and of the Renderer are computations on a [world] (file system, remote
    end, requests issued, log, standard output, open figures) that may
    raise.  The HTTP transport, the dataset engine and the plotting
    engine are the environment: the remote end is a component of the
    world, a label slice of the dataset engine is modelled on fields
    whose axes carry one coordinate label per position in binary64 or
    binary32, and what the engines decide and do on their own (whether a
    file opens as a dataset, whether a drawing call is accepted, the
    bytes of a rendered image, the map data the plotting engine fetches
    and stores, what a backend does when figures are shown) is a
    parameter. *)

From Stdlib Require Import Ascii ZArith QArith Lqa Qround Qpower.
From stdpp Require Import gmap strings list fin_maps sorting.

(** ** Python string operations used by the sources *)

Module PyStr.

(** [s.split(sep)] for a one-character separator: never empty. *)
Fixpoint split (sep : ascii) (s : string) : list string :=
  match s with
  | EmptyString => [""]
  | String a t =>
      if Ascii.eqb a sep then "" :: split sep t
      else match split sep t with
           | h :: r => String a h :: r
           | [] => [String a ""]
           end
  end.

(** [l[-1]]; the default stands for the IndexError of an empty list,
    which [split] never returns. *)
Definition last_item (l : list string) : string := List.last l "".

(** [s.rstrip(c)] for a one-character set. *)
Fixpoint rstrip (c : ascii) (s : string) : string :=
  match s with
  | EmptyString => ""
  | String a t =>
      match rstrip c t with
      | EmptyString => if Ascii.eqb a c then "" else String a ""
      | t' => String a t'
      end
  end.

(** [c * n] *)
Fixpoint replicate (n : nat) (c : ascii) : string :=
  match n with
  | O => ""
  | S n' => String c (replicate n' c)
  end.

(** [s.endswith(c)] *)
Fixpoint endswith (c : ascii) (s : string) : bool :=
  match s with
  | EmptyString => false
  | String a EmptyString => Ascii.eqb a c
  | String _ t => endswith c t
  end.

(** [needle in s] *)
Fixpoint prefix_of (p s : string) : bool :=
  match p, s with
  | EmptyString, _ => true
  | String a p', String b s' => Ascii.eqb a b && prefix_of p' s'
  | String _ _, EmptyString => false
  end.

Fixpoint contains (needle s : string) : bool :=
  prefix_of needle s ||
  match s with
  | EmptyString => false
  | String _ t => contains needle t
  end.

End PyStr.

(** ** download_goes.py: the URL template *)

Definition slash : ascii := "/"%char.

(** [f"{base_url.rstrip('/')}/{filename}"] *)
Definition build_goes_example_url (base_url filename : string) : string :=
  PyStr.rstrip slash base_url +:+ "/" +:+ filename.

(** ** Exceptions and results *)

(** The exception classes the three modules can meet.  All of them derive
    from [Exception]; the groupings below are the base classes the
    specification speaks of. *)
Inductive exn_class :=
| FileExistsError | NotADirectoryError | IsADirectoryError
| FileNotFoundError | PermissionError
| RequestException | HTTPError
| KeyError
| EngineError.

Record exn := Raise { exn_cls : exn_class; exn_msg : string }.


Definition is_LookupError (c : exn_class) : bool :=
  match c with KeyError => true | _ => false end.

Inductive result (A : Type) :=
| Ok (a : A)
| Err (e : exn).
Arguments Ok {A} a.
Arguments Err {A} e.

Definition is_Ok {A} (r : result A) : bool :=
  match r with Ok _ => true | Err _ => false end.

Definition rbind {A B} (r : result A) (k : A -> result B) : result B :=
  match r with
  | Ok a => k a
  | Err e => Err e
  end.

(** ** Paths and the file system *)

Abbreviation Path := (list string).
Abbreviation bytes := (list Byte.byte).

Inductive node :=
| File (content : bytes)
| Dir (writable : bool).

Abbreviation filesystem := (gmap (list string) node).

Module FS.

(** [Path(d) / name] for a [name] without "/": pathlib drops an empty
    or "." segment and keeps any other, ".." included. *)
Definition join (d : Path) (name : string) : Path :=
  if decide (name = "" \/ name = ".") then d else d ++ [name].

(** [p.parent] (lexical). *)
Definition parent (p : Path) : Path := removelast p.

(** [str(p)] *)
Fixpoint concat_sep (l : list string) : string :=
  match l with
  | [] => ""
  | [c] => c
  | c :: r => c +:+ "/" +:+ concat_sep r
  end.

Definition str (p : Path) : string :=
  match p with [] => "." | _ => concat_sep p end.

(** The node at a resolved path; the base of the tree is a directory. *)
Definition node_at (fs : filesystem) (k : list string) : option node :=
  match k with
  | [] => Some (Dir true)
  | _ => fs !! k
  end.

Definition is_dir_at (fs : filesystem) (k : list string) : bool :=
  match node_at fs k with Some (Dir _) => true | _ => false end.

Definition writable_at (fs : filesystem) (k : list string) : bool :=
  match node_at fs k with Some (Dir w) => w | _ => false end.

(** One component of path resolution, from the directory [cur]. *)
Definition step (cur : list string) (c : string) : list string :=
  if decide (c = "..") then removelast cur else cur ++ [c].

(** Resolution of the components [p] from [cur]: every component is
    looked up in a directory. *)
Fixpoint walk (fs : filesystem) (cur : list string) (p : Path)
  : result (list string) :=
  match p with
  | [] => Ok cur
  | c :: rest =>
      match node_at fs cur with
      | Some (Dir _) => walk fs (step cur c) rest
      | Some (File _) => Err (Raise NotADirectoryError (str cur))
      | None => Err (Raise FileNotFoundError (str cur))
      end
  end.

(** [os.stat] *)
Definition stat (fs : filesystem) (p : Path) : option node :=
  match walk fs [] p with
  | Ok k => node_at fs k
  | Err _ => None
  end.

(** [p.exists()], [p.is_dir()], [p.is_file()] *)
Definition exists_ (fs : filesystem) (p : Path) : bool :=
  match stat fs p with Some _ => true | None => false end.

Definition is_dir (fs : filesystem) (p : Path) : bool :=
  match stat fs p with Some (Dir _) => true | _ => false end.

Definition is_file (fs : filesystem) (p : Path) : bool :=
  match stat fs p with Some (File _) => true | _ => false end.

(** [p.mkdir(parents=True, exist_ok=True)], component by component from
    [cur]: an existing directory is entered, a missing one is created
    (if its parent may be written), anything else is an error. *)
Fixpoint mkdir_from (fs : filesystem) (cur : list string) (p : Path)
  : result filesystem :=
  match p with
  | [] => Ok fs
  | c :: rest =>
      let k := step cur c in
      match node_at fs k with
      | Some (Dir _) => mkdir_from fs k rest
      | Some (File _) =>
          Err (Raise (match rest with
                      | [] => FileExistsError
                      | _ => NotADirectoryError
                      end) (str k))
      | None =>
          if writable_at fs cur
          then mkdir_from (<[k := Dir true]> fs) k rest
          else Err (Raise PermissionError (str k))
      end
  end.

Definition mkdir_p (fs : filesystem) (p : Path) : result filesystem :=
  mkdir_from fs [] p.

(** [open(p, "wb")]: the file is created, or truncated if it exists;
    the result is the resolved path that subsequent writes go to. *)
Definition open_wb (fs : filesystem) (p : Path)
  : result (list string * filesystem) :=
  match walk fs [] p with
  | Err e => Err e
  | Ok k =>
      match node_at fs k with
      | Some (Dir _) => Err (Raise IsADirectoryError (str p))
      | Some (File _) => Ok (k, <[k := File []]> fs)
      | None =>
          if writable_at fs (removelast k)
          then Ok (k, <[k := File []]> fs)
          else Err (Raise PermissionError (str p))
      end
  end.

(** [f.write(chunk)] on the file opened at [k]. *)
Definition append (fs : filesystem) (k : list string) (chunk : bytes)
  : filesystem :=
  match fs !! k with
  | Some (File c) => <[k := File (c ++ chunk)]> fs
  | _ => fs
  end.

End FS.

(** ** The world the Fetcher and the Renderer act on *)

(** What the remote end answers to a GET: the status line, then the body
    as the chunks [iter_content] yields, then possibly a transport error
    in mid-stream. *)
Record response := Response {
  resp_status : Z;
  resp_chunks : list bytes;
  resp_abort : option exn
}.

Inductive log_level := INFO | ERROR.

Record world := World {
  fs : filesystem;
  (** the remote resources: the answer to a GET, given the requests
      made so far *)
  remote : list string -> string -> result response;
  (** every GET issued, oldest first *)
  requests : list string;
  (** the records handed to the module logger, oldest first *)
  log : list (log_level * string);
  (** lines printed on standard output *)
  stdout : list string;
  (** the numbers of the figures pyplot holds open *)
  figures : list nat;
  (** the figures put on screen by [plt.show()] *)
  shown : list nat
}.

Definition set_fs (f : filesystem) (w : world) : world :=
  World f (remote w) (requests w) (log w) (stdout w) (figures w) (shown w).

Definition add_request (u : string) (w : world) : world :=
  World (fs w) (remote w) (requests w ++ [u]) (log w) (stdout w)
        (figures w) (shown w).

Definition add_log (r : log_level * string) (w : world) : world :=
  World (fs w) (remote w) (requests w) (log w ++ [r]) (stdout w)
        (figures w) (shown w).

Definition add_stdout (s : string) (w : world) : world :=
  World (fs w) (remote w) (requests w) (log w) (stdout w ++ [s])
        (figures w) (shown w).

Definition set_figures (l : list nat) (w : world) : world :=
  World (fs w) (remote w) (requests w) (log w) (stdout w) l (shown w).

Definition add_shown (l : list nat) (w : world) : world :=
  World (fs w) (remote w) (requests w) (log w) (stdout w) (figures w)
        (shown w ++ l).

(** Computations that read and change the world and may raise. *)
Definition M (A : Type) : Type := world -> result A * world.

Definition ret {A} (a : A) : M A := fun w => (Ok a, w).

Definition raise {A} (e : exn) : M A := fun w => (Err e, w).

Definition bind {A B} (m : M A) (k : A -> M B) : M B :=
  fun w =>
    match m w with
    | (Ok a, w') => k a w'
    | (Err e, w') => (Err e, w')
    end.

(** [try: body  except Exception as exc: handler(exc)] *)
Definition try_except {A} (body : M A) (handler : exn -> M A) : M A :=
  fun w =>
    match body w with
    | (Ok a, w') => (Ok a, w')
    | (Err e, w') => handler e w'
    end.

Declare Scope py_scope.
Delimit Scope py_scope with py.
Notation "x <- m ;; k" := (bind m (fun x => k))
  (at level 100, m at next level, right associativity) : py_scope.
Notation "m ;;; k" := (bind m (fun _ => k))
  (at level 100, right associativity) : py_scope.
Local Open Scope py_scope.

(** [for x in xs: acc = body(acc, x)] *)
Fixpoint for_each {A B} (xs : list A) (body : B -> A -> M B) (acc : B) : M B :=
  match xs with
  | [] => ret acc
  | x :: rest => acc' <- body acc x ;; for_each rest body acc'
  end.

(** *** World primitives *)

Definition logger_info (msg : string) : M unit :=
  fun w => (Ok tt, add_log (INFO, msg) w).

Definition logger_error (msg : string) : M unit :=
  fun w => (Ok tt, add_log (ERROR, msg) w).

Definition print (line : string) : M unit :=
  fun w => (Ok tt, add_stdout line w).

Definition path_exists (p : Path) : M bool :=
  fun w => (Ok (FS.exists_ (fs w) p), w).

Definition mkdir_parents_exist_ok (p : Path) : M unit :=
  fun w =>
    match FS.mkdir_p (fs w) p with
    | Ok f => (Ok tt, set_fs f w)
    | Err e => (Err e, w)
    end.

Definition open_wb (p : Path) : M (list string) :=
  fun w =>
    match FS.open_wb (fs w) p with
    | Ok (k, f) => (Ok k, set_fs f w)
    | Err e => (Err e, w)
    end.

Definition file_write (k : list string) (chunk : bytes) : M unit :=
  fun w => (Ok tt, set_fs (FS.append (fs w) k chunk) w).

(** [requests.get(url, stream=True, timeout=60)] *)
Definition requests_get (url : string) : M response :=
  fun w =>
    let w' := add_request url w in
    (remote w (requests w) url, w').

(** [resp.raise_for_status()] *)
Definition raise_for_status (url : string) (resp : response) : M unit :=
  if ((400 <=? resp_status resp) && (resp_status resp <? 600))%Z
  then raise (Raise HTTPError url)
  else ret tt.

(** ** download_goes.py *)

Definition ensure_dir (path : Path) : M Path :=
  let p := path in
  mkdir_parents_exist_ok p ;;;
  ret p.

(** The [with open(...)] block of [download_file]: every non-empty chunk
    is written as it arrives; an error in mid-stream leaves what was
    written so far. *)
Definition write_body (f : list string) (resp : response) : M unit :=
  for_each (resp_chunks resp)
    (fun _ chunk =>
       match chunk with
       | [] => ret tt
       | _ => file_write f chunk
       end) tt ;;;
  match resp_abort resp with
  | Some e => raise e
  | None => ret tt
  end.

Definition url_filename (url : string) : string :=
  PyStr.last_item (PyStr.split slash url).

Definition download_file (url : string) (out_dir : Path) : M Path :=
  out_dir <- ensure_dir out_dir ;;
  let filename := url_filename url in
  let out_path := FS.join out_dir filename in
  found <- path_exists out_path ;;
  if found : bool then
    logger_info ("Ya existe, no se descarga de nuevo: " +:+ FS.str out_path) ;;;
    ret out_path
  else
    logger_info ("Descargando " +:+ url +:+ " -> " +:+ FS.str out_path) ;;;
    resp <- requests_get url ;;
    raise_for_status url resp ;;;
    f <- open_wb out_path ;;
    write_body f resp ;;;
    logger_info ("Descarga completa: " +:+ FS.str out_path) ;;;
    ret out_path.

Definition download_many (urls : list string) (out_dir : Path) : M (list Path) :=
  results <- for_each urls
    (fun results url =>
       try_except
         (p <- download_file url out_dir ;;
          ret (results ++ [p]))
         (fun exc =>
            logger_error ("Error descargando " +:+ url +:+ ": " +:+ exn_msg exc) ;;;
            ret results))
    [] ;;
  ret results.


(** The path [download_file] aims at. *)
Definition target (out_dir : Path) (url : string) : Path :=
  FS.join out_dir (url_filename url).

Definition msg_exists (p : Path) : string :=
  "Ya existe, no se descarga de nuevo: " +:+ FS.str p.

Definition msg_error (url : string) (e : exn) : string :=
  "Error descargando " +:+ url +:+ ": " +:+ exn_msg e.


(** *** What a batch does, URL by URL

    [attempts out_dir urls w outcomes w'] follows the batch through the
    list: each URL in turn is handed to [download_file] in the world the
    previous ones left, its outcome is recorded next to it, and a failure
    adds one ERROR record before the next URL is tried. *)
Inductive attempts (out_dir : Path)
  : list string -> world -> list (string * result Path) -> world -> Prop :=
| attempts_nil w :
    attempts out_dir [] w [] w
| attempts_ok url urls w p w1 outcomes w2 :
    download_file url out_dir w = (Ok p, w1) ->
    attempts out_dir urls w1 outcomes w2 ->
    attempts out_dir (url :: urls) w ((url, Ok p) :: outcomes) w2
| attempts_err url urls w e w1 outcomes w2 :
    download_file url out_dir w = (Err e, w1) ->
    attempts out_dir urls (add_log (ERROR, msg_error url e) w1) outcomes w2 ->
    attempts out_dir (url :: urls) w ((url, Err e) :: outcomes) w2.

(** The paths of the successful items, and their URLs, in order. *)
Fixpoint successes (outcomes : list (string * result Path)) : list Path :=
  match outcomes with
  | [] => []
  | (_, Ok p) :: rest => p :: successes rest
  | (_, Err _) :: rest => successes rest
  end.

Fixpoint successful_urls (outcomes : list (string * result Path)) : list string :=
  match outcomes with
  | [] => []
  | (u, Ok _) :: rest => u :: successful_urls rest
  | (_, Err _) :: rest => successful_urls rest
  end.

(** ** The dataset engine: labelled fields and label-based slices *)

(** *** Floating-point labels

    Labels, samples and the bounds a caller gives are finite
    floating-point numbers, embedded here in the rationals.  A Python
    float is a binary64 number; the coordinate of an axis is stored in
    binary64 or in binary32, and an index converts a label it is asked
    for to its own dtype before it compares it with its labels (a Python
    float is weakly typed in the promotion rules of the array
    library). *)
Inductive dtype := Float32 | Float64.

Module Float.

(** [floor (log2 q)] for [q > 0]. *)
Definition floor_log2 (q : Q) : Z :=
  let e := (Z.log2 (Qnum q) - Z.log2 (Zpos (Qden q)))%Z in
  if Qle_bool (2 ^ e) q then e else (e - 1)%Z.

(** The nearest integer, a tie going to the even one. *)
Definition round_half_even (q : Q) : Z :=
  let f := Qfloor q in
  match (q - inject_Z f ?= 1 # 2)%Q with
  | Lt => f
  | Gt => (f + 1)%Z
  | Eq => if Z.even f then f else (f + 1)%Z
  end.

(** The exponent of the last place of the binary32 numbers around
    [q > 0]: 24 significant bits, exponents from -126 (below, the
    subnormal numbers share the last place 2^-149). *)
Definition scale32 (q : Q) : Z := (Z.max (floor_log2 q) (-126) - 23)%Z.

(** [q > 0] rounded to 24 significant bits, the exponent unbounded
    above. *)
Definition unclamped32 (q : Q) : Q :=
  (inject_Z (round_half_even (q / 2 ^ scale32 q)) * 2 ^ scale32 q)%Q.

(** Conversion of [q > 0] to binary32, to nearest, ties to even.  What
    rounds to 2^128 or more overflows to infinity; 2^128, which is above
    every finite binary32 number, stands for it. *)
Definition round32_pos (q : Q) : Q :=
  if Qle_bool (2 ^ 128) (unclamped32 q) then (2 ^ 128)%Q else unclamped32 q.

Definition round32 (q : Q) : Q :=
  match Qnum q with
  | Z0 => 0%Q
  | Zpos _ => round32_pos q
  | Zneg _ => (- round32_pos (- q))%Q
  end.

End Float.

(** A Python float converted to the dtype [dt]. *)
Definition cast (dt : dtype) (q : Q) : Q :=
  match dt with
  | Float64 => q
  | Float32 => Float.round32 q
  end.

Definition cast_bounds (dt : dtype) (b : Q * Q) : Q * Q :=
  (cast dt (fst b), cast dt (snd b)).

(** A coordinate axis: a dimension name, the dtype of its labels and one
    label per position. *)
Record axis := Axis { ax_name : string; ax_dtype : dtype; ax_coords : list Q }.

(** A field: an optional name, its axes in order, each with one
    coordinate label per position, and the sample at each position (one
    index per axis). *)
Record DataArray := MkDataArray {
  da_name : option string;
  da_axes : list axis;
  da_values : list nat -> Q
}.

(** A scene: the mapping from variable names to fields. *)
Abbreviation Dataset := (gmap string DataArray).

(** [l[start:stop]] for positions within the list. *)
Definition py_slice {A} (start stop : nat) (l : list A) : list A :=
  take (stop - start) (drop start l).

(** The index of one axis, and how a label slice is turned into a slice
    of positions. *)
Module Index.

Definition Qlt_bool (x y : Q) : bool := negb (Qle_bool y x).

Fixpoint is_monotonic_increasing (l : list Q) : bool :=
  match l with
  | a :: r =>
      match r with
      | b :: _ => Qle_bool a b && is_monotonic_increasing r
      | [] => true
      end
  | [] => true
  end.

Fixpoint is_monotonic_decreasing (l : list Q) : bool :=
  match l with
  | a :: r =>
      match r with
      | b :: _ => Qle_bool b a && is_monotonic_decreasing r
      | [] => true
      end
  | [] => true
  end.

Inductive side := Left | Right.

Definition flip (s : side) : side :=
  match s with Left => Right | Right => Left end.

(** Whether the label [c] of a sorted index stays before the insertion
    point of [v]. *)
Definition before (s : side) (c v : Q) : bool :=
  match s with
  | Left => Qlt_bool c v
  | Right => Qle_bool c v
  end.

(** [searchsorted(v, side)] on an ascending index, for a value [v] of
    the dtype of the index (the index converts what it is given, see
    [XR.sel_one]): the number of leading labels that stay before the
    insertion point. *)
Fixpoint searchsorted (l : list Q) (v : Q) (s : side) : nat :=
  match l with
  | [] => 0
  | c :: r => if before s c v then S (searchsorted r v s) else 0
  end.

(** The positions, counted from [off], at which the label occurs. *)
Fixpoint positions (off : nat) (l : list Q) (v : Q) : list nat :=
  match l with
  | [] => []
  | c :: r =>
      if Qeq_bool c v then off :: positions (S off) r v
      else positions (S off) r v
  end.

Definition contiguous (ps : list nat) : bool :=
  match ps with
  | [] => true
  | p :: _ => bool_decide (ps = seq p (length ps))
  end.

(** [get_slice_bound(label, side)] for a label of the dtype of the
    index.  On a sorted index the bound is found by binary search,
    whether or not the label occurs; on an unsorted index the label has
    to occur, in one run. *)
Definition get_slice_bound (idx : list Q) (label : Q) (s : side)
  : result nat :=
  if is_monotonic_increasing idx then
    Ok (searchsorted idx label s)
  else if is_monotonic_decreasing idx then
    Ok (length idx - searchsorted (reverse idx) label (flip s))
  else
    match positions 0 idx label with
    | [] => Err (Raise KeyError "label not found in an unsorted index")
    | p :: ps =>
        if contiguous (p :: ps)
        then Ok (match s with Left => p | Right => S (List.last ps p) end)
        else Err (Raise KeyError "cannot get slice bound for non-unique label")
    end.

(** [slice_indexer(start, stop)] *)
Definition slice_indexer (idx : list Q) (lo hi : Q) : result (nat * nat) :=
  rbind (get_slice_bound idx lo Left) (fun start =>
  rbind (get_slice_bound idx hi Right) (fun stop =>
  Ok (start, stop))).

End Index.

(** A Python dict literal, in insertion order: a repeated key keeps its
    place and takes the later value. *)
Fixpoint dict_set {V} (k : string) (v : V) (d : list (string * V))
  : list (string * V) :=
  match d with
  | [] => [(k, v)]
  | (k', v') :: r =>
      if decide (k' = k) then (k', v) :: r else (k', v') :: dict_set k v r
  end.

Definition dict_literal {V} (items : list (string * V)) : list (string * V) :=
  fold_left (fun d kv => dict_set (fst kv) (snd kv) d) items [].

Module XR.

(** [name in ds] and [ds[name]] *)
Definition contains (ds : Dataset) (name : string) : bool :=
  bool_decide (is_Some (ds !! name)).

Definition getitem (ds : Dataset) (name : string) : result DataArray :=
  match ds !! name with
  | Some da => Ok da
  | None => Err (Raise KeyError name)
  end.

Fixpoint find_axis (name : string) (axes : list axis) : option (nat * axis) :=
  match axes with
  | [] => None
  | a :: r =>
      if decide (ax_name a = name) then Some (0, a)
      else match find_axis name r with
           | Some (i, b) => Some (S i, b)
           | None => None
           end
  end.

(** [da.isel({dim: slice(start, stop)})] for the axis at position [i]:
    the axis keeps the labels of the positions selected, and position
    [n] of the result is position [start + n] of [da]. *)
Definition isel (da : DataArray) (i start stop : nat) : DataArray :=
  {| da_name := da_name da;
     da_axes :=
       alter (fun a => Axis (ax_name a) (ax_dtype a) (py_slice start stop (ax_coords a)))
             i (da_axes da);
     da_values := fun idx => da_values da (alter (fun n => start + n) i idx) |}.

(** One entry of [da.sel({dim: slice(lo, hi)})]: the index of the axis
    converts the two bounds to its dtype and turns them into
    positions. *)
Definition sel_one (da : DataArray) (dim : string) (bounds : Q * Q)
  : result DataArray :=
  match find_axis dim (da_axes da) with
  | None =>
      Err (Raise KeyError
             ("'" +:+ dim +:+ "' is not a valid dimension or coordinate"))
  | Some (i, a) =>
      rbind (Index.slice_indexer (ax_coords a)
               (cast (ax_dtype a) (fst bounds)) (cast (ax_dtype a) (snd bounds)))
            (fun '(start, stop) => Ok (isel da i start stop))
  end.

(** [da.sel(indexers)] with a label slice per entry. *)
Fixpoint sel (da : DataArray) (indexers : list (string * (Q * Q)))
  : result DataArray :=
  match indexers with
  | [] => Ok da
  | (dim, bounds) :: rest => rbind (sel_one da dim bounds) (fun da' => sel da' rest)
  end.

End XR.

(** ** preprocess_goes.py *)

Definition select_variable (ds : Dataset) (var_name : string)
  : result DataArray :=
  if negb (XR.contains ds var_name) then
    Err (Raise KeyError ("La variable '" +:+ var_name +:+ "' no existe en el Dataset."))
  else XR.getitem ds var_name.

Definition subset_domain (da : DataArray) (lat_bounds lon_bounds : Q * Q)
  (lat_name lon_name : string) : result DataArray :=
  let '(lat_min, lat_max) := lat_bounds in
  let '(lon_min, lon_max) := lon_bounds in
  let da_sub :=
    XR.sel da (dict_literal [(lat_name, (lat_min, lat_max));
                             (lon_name, (lon_min, lon_max))]) in
  da_sub.

Section ScenePreparer.

(** [xr.open_dataset]: what the dataset engine makes of the file at a
    path, or the error it raises. *)
Variable xr_open_dataset : Path -> result Dataset.

Definition open_goes_scene (path : Path) : result Dataset :=
  let path := path in
  rbind (xr_open_dataset path) (fun ds =>
  Ok ds).

Definition prepare_scene (path : Path) (var_name : string)
  (lat_bounds lon_bounds : Q * Q) (lat_name lon_name : string)
  : result DataArray :=
  rbind (open_goes_scene path) (fun ds =>
  rbind (select_variable ds var_name) (fun da =>
  rbind (subset_domain da lat_bounds lon_bounds lat_name lon_name) (fun da_sub =>
  Ok da_sub))).

(** The composition the specification describes: the three operations
    applied one to the result of the other, an error of an earlier one
    being the result of the whole. *)
Definition composed_scene (path : Path) (var_name : string)
  (lat_bounds lon_bounds : Q * Q) (lat_name lon_name : string)
  : result DataArray :=
  match open_goes_scene path with
  | Err e => Err e
  | Ok ds =>
      match select_variable ds var_name with
      | Err e => Err e
      | Ok da => subset_domain da lat_bounds lon_bounds lat_name lon_name
      end
  end.

End ScenePreparer.


(** *** Selection by coordinate value

    What "the field restricted to the samples whose coordinate lies in
    the closed interval" means, position by position and without any
    search: the labels within the bounds are kept, in order, and the
    n-th sample kept is the sample at the n-th position whose label is
    within the bounds. *)

Definition in_bounds (b : Q * Q) (c : Q) : bool :=
  Qle_bool (fst b) c && Qle_bool c (snd b).






Definition is_monotonic (l : list Q) : bool :=
  Index.is_monotonic_increasing l || Index.is_monotonic_decreasing l.

(** The order of a descending index. *)
Definition Q_ge (x y : Q) : Prop := (y <= x)%Q.


(** ** The plotting engine *)

(** The calls made on a figure and its map axes. *)
Inductive draw_cmd :=
| Axes (projection : string)
| SetExtent (extent : Q * Q * Q * Q) (crs : string)
| Coastlines (resolution : string) (linewidth : Q)
| Gridlines (draw_labels : bool) (linestyle : string) (linewidth : Q)
| GridTopLabels (on : bool)
| GridRightLabels (on : bool)
| PlotField (da : DataArray) (transform cmap : string) (add_colorbar : bool)
            (cbar_label : string)
| PlotLine (lons lats : list Q) (transform : string) (linewidth : Q)
           (linestyle : string)
| SetTitle (title : string) (fontsize : Z)
| TightLayout.

(** A figure: its number in pyplot, its size in inches, and what has
    been drawn on it so far. *)
Record figure := Figure {
  fig_num : nat;
  fig_size : Z * Z;
  fig_cmds : list draw_cmd
}.

(** The number pyplot gives to a new figure. *)
Definition fresh_fig (w : world) : nat := S (max_list (figures w)).

(** [plt.figure(figsize=...)] *)
Definition plt_figure (figsize : Z * Z) : M figure :=
  fun w =>
    let n := fresh_fig w in
    (Ok (Figure n figsize []), set_figures (figures w ++ [n]) w).

(** [plt.close(fig)] *)
Definition plt_close (fig : figure) : M unit :=
  fun w =>
    (Ok tt,
     set_figures (List.filter (fun n => negb (n =? fig_num fig)) (figures w)) w).

(** *** What the engine does on its own

    The plotting engine keeps map data (the coast lines it draws) in
    files of its own and fetches over the network what it has not stored
    yet.  While it works on a call it may therefore read and change the
    file system and the network, and nothing else of the world. *)
Record engine_io := EngineIO {
  io_fs : filesystem;
  io_requests : list string
}.

Definition io_of (w : world) : engine_io := EngineIO (fs w) (requests w).

Definition set_io (io : engine_io) (w : world) : world :=
  World (io_fs io) (remote w) (io_requests io) (log w) (stdout w)
        (figures w) (shown w).

(** A call into the engine. *)
Definition engine {A} (call : engine_io -> result A * engine_io) : M A :=
  fun w => let (r, io) := call (io_of w) in (r, set_io io w).

(** *** The file a figure is saved to

    [savefig] takes the format from the extension of the file name; a
    name without one gets the default format, "png", and that extension
    is appended to it. *)

Definition dot : ascii := "."%char.

(** [os.path.splitext(name)[1][1:]] for the last component of a path:
    what follows the last dot, provided something other than dots
    precedes that dot. *)
Definition file_format (name : string) : string :=
  match reverse (PyStr.split dot name) with
  | suffix :: (_ :: _) as stem =>
      if forallb (String.eqb "") stem then "" else suffix
  | _ => ""
  end.

(** [name.rstrip('.') + '.png'] when the name gives no format. *)
Definition savefig_name (name : string) : string :=
  if decide (file_format name = "") then PyStr.rstrip dot name +:+ ".png"
  else name.

(** The path [fig.savefig(path)] writes to. *)
Definition savefig_target (path : Path) : Path :=
  FS.parent path ++ [savefig_name (List.last path ".")].

Section Renderer.

(** The plotting engine and its backend: what a drawing call does, given
    what the figure already holds (it may be refused); the image file a
    figure is rendered to for a file name (whose extension selects the
    format) and a resolution; and what [plt.show()] does with the open
    figures, namely which ones it puts on screen and which ones are
    still open when it returns (a window backend returns once the
    windows are closed, an inline backend closes what it has displayed,
    a backend without display shows nothing). *)
Variable draw_call :
  list draw_cmd -> draw_cmd -> engine_io -> result unit * engine_io.
Variable render :
  figure -> string -> Z -> engine_io -> result bytes * engine_io.
Variable show_backend :
  list nat -> engine_io -> (list nat * list nat) * engine_io.

(** [plt.show()] *)
Definition plt_show : M unit :=
  fun w =>
    let '((displayed, still_open), io) := show_backend (figures w) (io_of w) in
    (Ok tt, set_figures still_open (add_shown displayed (set_io io w))).

Definition draw (fig : figure) (c : draw_cmd) : M figure :=
  engine (draw_call (fig_cmds fig) c) ;;;
  ret (Figure (fig_num fig) (fig_size fig) (fig_cmds fig ++ [c])).

(** [fig.savefig(path, dpi=dpi)]: the figure is rendered for the file
    name it will have, then the file is written. *)
Definition savefig (fig : figure) (path : Path) (dpi : Z) : M unit :=
  let target := savefig_target path in
  img <- engine (render fig (FS.str target) dpi) ;;
  f <- open_wb target ;;
  file_write f img.

(** [str(da.name) if da.name else "Valor"] *)
Definition cbar_label (da : DataArray) : string :=
  match da_name da with
  | Some name => if decide (name = "") then "Valor" else name
  | None => "Valor"
  end.

(** ** plot_goes.py *)

Definition plot_goes_scene (da : DataArray)
  (extent : option (Q * Q * Q * Q)) (cmap : string) (title : option string)
  (flight_track : option (list Q * list Q)) (save_path : option Path)
  (show : bool) : M unit :=
  let data_crs := "PlateCarree" in
  fig <- plt_figure (8, 6)%Z ;;
  fig <- draw fig (Axes data_crs) ;;
  fig <- match extent with
         | Some e => draw fig (SetExtent e data_crs)
         | None => ret fig
         end ;;
  fig <- draw fig (Coastlines "50m" 0.7%Q) ;;
  fig <- draw fig (Gridlines true "--" 0.3%Q) ;;
  fig <- draw fig (GridTopLabels false) ;;
  fig <- draw fig (GridRightLabels false) ;;
  fig <- draw fig (PlotField da data_crs cmap true (cbar_label da)) ;;
  fig <- match flight_track with
         | Some (lons, lats) =>
             draw fig (PlotLine lons lats data_crs 1.5%Q "-")
         | None => ret fig
         end ;;
  fig <- match title with
         | Some t => draw fig (SetTitle t 12)
         | None => ret fig
         end ;;
  fig <- draw fig TightLayout ;;
  match save_path with
  | Some save_path =>
      mkdir_parents_exist_ok (FS.parent save_path) ;;;
      savefig fig save_path 150 ;;;
      print ("Figura guardada en: " +:+ FS.str save_path)
  | None => ret tt
  end ;;;
  if show then plt_show else plt_close fig.

(** *** What one call draws *)

Definition scene_cmds (da : DataArray) (extent : option (Q * Q * Q * Q))
  (cmap : string) (title : option string)
  (flight_track : option (list Q * list Q)) : list draw_cmd :=
  [Axes "PlateCarree"]
  ++ match extent with Some e => [SetExtent e "PlateCarree"] | None => [] end
  ++ [Coastlines "50m" 0.7%Q; Gridlines true "--" 0.3%Q;
      GridTopLabels false; GridRightLabels false;
      PlotField da "PlateCarree" cmap true (cbar_label da)]
  ++ match flight_track with
     | Some (lons, lats) => [PlotLine lons lats "PlateCarree" 1.5%Q "-"]
     | None => []
     end
  ++ match title with Some t => [SetTitle t 12] | None => [] end
  ++ [TightLayout].

(** The drawing calls [cmds] issued in turn on a figure that holds
    [drawn]: the first refusal of the engine, if any, and what the
    engine has done to the file system and the network by then. *)
Fixpoint draw_all (drawn cmds : list draw_cmd) (io : engine_io)
  : option exn * engine_io :=
  match cmds with
  | [] => (None, io)
  | c :: rest =>
      match draw_call drawn c io with
      | (Err e, io') => (Some e, io')
      | (Ok _, io') => draw_all (drawn ++ [c]) rest io'
      end
  end.

(** The figure a call builds in the world [w]. *)
Definition scene_figure (w : world) (da : DataArray)
  (extent : option (Q * Q * Q * Q)) (cmap : string) (title : option string)
  (flight_track : option (list Q * list Q)) : figure :=
  Figure (fresh_fig w) (8, 6)%Z (scene_cmds da extent cmap title flight_track).

(** The world once the figure of a call has been opened. *)
Definition figure_opened (w : world) : world :=
  set_figures (figures w ++ [fresh_fig w]) w.

(** The last step of [plot_goes_scene] for the figure numbered [n]:
    shown and left to the backend, or closed. *)
Definition shown_or_closed (show : bool) (n : nat) (w : world) : world :=
  if show then snd (plt_show w)
  else set_figures (List.filter (fun m => negb (m =? n)) (figures w)) w.

(** Everything [plot_goes_scene] can do, by cases on what it meets. *)
Definition scene_outcome (da : DataArray)
  (extent : option (Q * Q * Q * Q)) (cmap : string) (title : option string)
  (flight_track : option (list Q * list Q)) (save_path : option Path)
  (show : bool) (w : world) : result unit * world :=
  match draw_all [] (scene_cmds da extent cmap title flight_track) (io_of w) with
  | (Some e, io1) => (Err e, set_io io1 (figure_opened w))
  | (None, io1) =>
      let w1 := set_io io1 (figure_opened w) in
      match save_path with
      | None => (Ok tt, shown_or_closed show (fresh_fig w) w1)
      | Some p =>
          match FS.mkdir_p (io_fs io1) (FS.parent p) with
          | Err e => (Err e, w1)
          | Ok f1 =>
              match render (scene_figure w da extent cmap title flight_track)
                           (FS.str (savefig_target p)) 150%Z
                           (EngineIO f1 (io_requests io1)) with
              | (Err e, io2) => (Err e, set_io io2 w1)
              | (Ok img, io2) =>
                  match FS.open_wb (io_fs io2) (savefig_target p) with
                  | Err e => (Err e, set_io io2 w1)
                  | Ok (k, f3) =>
                      (Ok tt,
                       shown_or_closed show (fresh_fig w)
                         (add_stdout ("Figura guardada en: " +:+ FS.str p)
                            (set_fs (FS.append f3 k img) (set_io io2 w1))))
                  end
              end
          end
      end
  end.

End Renderer.

Definition msg_saved (p : Path) : string := "Figura guardada en: " +:+ FS.str p.

(** ** Concrete worlds and fields used in the examples *)

Module Examples.

(** A remote end that serves three bytes in two chunks for every URL
    but one, which it answers with 404. *)
Definition remote (history : list string) (url : string) : result response :=
  if decide (url = "https://host/goes/missing.nc")
  then Ok (Response 404 [] None)
  else Ok (Response 200 [[Byte.x01; Byte.x02]; []; [Byte.x03]] None).

Definition empty_world : world := World ∅ remote [] [] [] [] [].

(** [data/a.nc] has been downloaded before. *)
Definition cached_world : world :=
  World (<[ ["data"] := Dir true ]>
           (<[ ["data"; "a.nc"] := File [Byte.x2a] ]> ∅))
        remote [] [] [] [] [].

(** The directory [ro] exists and may not be written. *)
Definition readonly_world : world :=
  World (<[ ["ro"] := Dir false ]> ∅) remote [] [] [] [] [].

Definition values (idx : list nat) : Q :=
  match idx with
  | [i; j] => inject_Z (Z.of_nat (10 * i + j))
  | _ => 0%Q
  end.

(** A field over an ascending latitude axis "y" and an ascending
    longitude axis "x". *)
Definition scene_field : DataArray :=
  MkDataArray (Some "CMI")
    [Axis "y" Float64 [-6; -5; 0; 3; 5; 7]%Q; Axis "x" Float64 [-90; -80; -75; -70]%Q]
    values.

(** The same samples over a latitude axis that is not sorted. *)
Definition unsorted_field : DataArray :=
  MkDataArray (Some "CMI")
    [Axis "y" Float64 [1; 3; 2]%Q; Axis "x" Float64 [-90; -80; -75; -70]%Q]
    values.


(** The same samples over a descending latitude axis. *)
Definition descending_field : DataArray :=
  MkDataArray (Some "CMI")
    [Axis "y" Float64 [5; 4; 3; 2; 1]%Q; Axis "x" Float64 [-90; -80; -75; -70]%Q]
    values.

(** A plotting engine that accepts every call, has its map data at hand
    (it touches neither the file system nor the network) and renders
    every figure to the same four bytes. *)
Definition draw_anything (drawn : list draw_cmd) (c : draw_cmd)
  (io : engine_io) : result unit * engine_io :=
  (Ok tt, io).

Definition render_stub (fig : figure) (name : string) (dpi : Z)
  (io : engine_io) : result bytes * engine_io :=
  (Ok [Byte.x89; Byte.x50; Byte.x4e; Byte.x47], io).

(** A backend without display: [plt.show()] shows nothing and leaves
    every figure open. *)
Definition show_nothing (figs : list nat) (io : engine_io)
  : (list nat * list nat) * engine_io :=
  (([], figs), io).

(** An inline backend: [plt.show()] displays every open figure and
    closes it. *)
Definition show_inline (figs : list nat) (io : engine_io)
  : (list nat * list nat) * engine_io :=
  ((figs, []), io).



End Examples.


(** ** What a download writes *)

(** The file system after the chunks of a body have been written, in
    turn, to the file opened at [k]; an empty chunk is skipped. *)
Definition write_chunks (f : filesystem) (k : list string) (chunks : list bytes)
  : filesystem :=
  fold_left
    (fun f chunk => match chunk with [] => f | _ => FS.append f k chunk end)
    chunks f.

(** The status codes [raise_for_status] raises on. *)
Definition bad_status (resp : response) : bool :=
  ((400 <=? resp_status resp) && (resp_status resp <? 600))%Z.

Definition msg_start (url : string) (p : Path) : string :=
  "Descargando " +:+ url +:+ " -> " +:+ FS.str p.

Definition msg_done (p : Path) : string :=
  "Descarga completa: " +:+ FS.str p.

(** The world in which [download_file] streams the body: the directory
    has been made, the start has been logged and the GET recorded. *)
Definition requested (url : string) (out_dir : Path) (f1 : filesystem)
  (w : world) : world :=
  add_request url (add_log (INFO, msg_start url (target out_dir url)) (set_fs f1 w)).

(** [requests.get] followed by [raise_for_status]: the response, or the
    error of the transport or of a 4xx/5xx status. *)
Definition request_outcome (w : world) (url : string) : result response :=
  match remote w (requests w) url with
  | Err e => Err e
  | Ok resp => if bad_status resp then Err (Raise HTTPError url) else Ok resp
  end.

(** ** Rectangular windows of a field *)

(** The field cut to the positions [start, stop) given for each axis:
    each axis keeps that run of its labels, and position [n] along an
    axis of the window is position [start + n] of the field. *)
Definition window (da : DataArray) (ws : list (nat * nat)) : DataArray :=
  {| da_name := da_name da;
     da_axes :=
       zip_with (fun a w => Axis (ax_name a) (ax_dtype a)
                              (py_slice (fst w) (snd w) (ax_coords a)))
                (da_axes da) ws;
     da_values := fun idx => da_values da (zip_with (fun w n => fst w + n) ws idx) |}.

(** The window that keeps every position of every axis. *)
Definition full_windows (da : DataArray) : list (nat * nat) :=
  map (fun a => (0, length (ax_coords a))) (da_axes da).

(** [da'] is the window [ws] of [da]. *)
Definition is_window (da' da : DataArray) (ws : list (nat * nat)) : Prop :=
  length ws = length (da_axes da)
  /\ da_name da' = da_name da
  /\ da_axes da' = da_axes (window da ws)
  /\ forall idx, length idx = length (da_axes da) ->
                 da_values da' idx = da_values (window da ws) idx.

(** ** A remote end that breaks off *)

Module Outage.

(** The remote end answers 200, streams two bytes and then drops the
    connection. *)
Definition remote (history : list string) (url : string) : result response :=
  Ok (Response 200 [[Byte.x01; Byte.x02]]
        (Some (Raise RequestException "connection reset"))).

Definition empty_world : world := World ∅ remote [] [] [] [] [].

End Outage.

(** ** What a batch has left to fetch *)

(** The URLs of [urls] whose target does not exist in [f]. *)
Definition missing_in (f : filesystem) (d : Path) (urls : list string)
  : list string :=
  List.filter (fun u => negb (FS.exists_ f (target d u))) urls.

(** *** Facts about the string operations *)

Lemma split_nonempty sep s : PyStr.split sep s <> [].
Proof.
  destruct s as [|a t]; simpl; [discriminate|].
  destruct (Ascii.eqb a sep); [discriminate|].
  destruct (PyStr.split sep t); discriminate.
Qed.

Lemma sapp_nil_l (t : string) : "" +:+ t = t.
Proof. reflexivity. Qed.

Lemma sapp_cons (a : ascii) (s t : string) :
  String a s +:+ t = String a (s +:+ t).
Proof. reflexivity. Qed.

Lemma sapp_nil_r (s : string) : s +:+ "" = s.
Proof.
  induction s as [|a s IH]; [reflexivity|]. by rewrite sapp_cons, IH.
Qed.

Lemma sapp_assoc (a b c : string) : (a +:+ b) +:+ c = a +:+ (b +:+ c).
Proof.
  induction a as [|x a IH]; [reflexivity|]. by rewrite !sapp_cons, IH.
Qed.

Lemma rstrip_app_sep c s :
  PyStr.rstrip c (s +:+ String c "") = PyStr.rstrip c s.
Proof.
  induction s as [|a t IH].
  - rewrite sapp_nil_l. simpl. by rewrite Ascii.eqb_refl.
  - rewrite sapp_cons. simpl. by rewrite IH.
Qed.

Lemma rstrip_decompose c s :
  exists n, s = PyStr.rstrip c s +:+ PyStr.replicate n c.
Proof.
  induction s as [|a t [n IH]]; simpl.
  - by exists 0.
  - destruct (PyStr.rstrip c t) as [|b r] eqn:E.
    + rewrite sapp_nil_l in IH.
      destruct (Ascii.eqb_spec a c) as [->|].
      * exists (S n). rewrite sapp_nil_l. simpl. by f_equal.
      * exists n. rewrite sapp_cons, sapp_nil_l. by f_equal.
    + exists n. rewrite sapp_cons. by f_equal.
Qed.

Lemma rstrip_endswith c s : PyStr.endswith c (PyStr.rstrip c s) = false.
Proof.
  induction s as [|a t IH]; simpl; [reflexivity|].
  destruct (PyStr.rstrip c t) as [|b r] eqn:E.
  - destruct (Ascii.eqb_spec a c); simpl; [reflexivity|].
    by apply Ascii.eqb_neq.
  - simpl in *. exact IH.
Qed.

Lemma rstrip_id c s : PyStr.endswith c s = false -> PyStr.rstrip c s = s.
Proof.
  induction s as [|a t IH]; simpl; [reflexivity|].
  destruct t as [|b r].
  - simpl. by intros ->.
  - intros H. by rewrite (IH H).
Qed.

(** C7: [build_goes_example_url] maps both spellings of the example base
    to the same URL; for every base and filename a trailing slash appended
    to the base does not change the result; and the result is always the
    plain join [core + "/" + filename], where [core] is the base without
    its trailing slashes (it does not end in "/", and the base is [core]
    followed by slashes only).  Nothing is validated: the function is
    total on all strings. *)
Theorem C7_build_url_normalizes_trailing_slash :
  build_goes_example_url "https://example.com/data/" "file.nc"
    = "https://example.com/data/file.nc"
  /\ build_goes_example_url "https://example.com/data" "file.nc"
    = "https://example.com/data/file.nc"
  /\ (forall base filename,
        build_goes_example_url (base +:+ "/") filename
        = build_goes_example_url base filename)
  /\ (forall base filename,
        exists core n,
          base = core +:+ PyStr.replicate n slash
          /\ PyStr.endswith slash core = false
          /\ build_goes_example_url base filename = core +:+ "/" +:+ filename)
  /\ (forall base filename,
        build_goes_example_url base filename
        = (if PyStr.endswith slash base then PyStr.rstrip slash base else base)
            +:+ "/" +:+ filename).
Proof.
  repeat split.
  - intros base filename. unfold build_goes_example_url, slash.
    by rewrite rstrip_app_sep.
  - intros base filename.
    destruct (rstrip_decompose slash base) as [n Hn].
    exists (PyStr.rstrip slash base), n.
    split; [exact Hn|]. split; [apply rstrip_endswith|reflexivity].
  - intros base filename. unfold build_goes_example_url.
    destruct (PyStr.endswith slash base) eqn:E; [reflexivity|].
    rewrite (rstrip_id _ _ E). reflexivity.
Qed.

(** ** Properties of the file-system model *)

Lemma node_at_insert_dir (f : filesystem) k x :
  FS.node_at f k = None ->
  FS.is_dir_at f x = true ->
  FS.is_dir_at (<[k := Dir true]> f) x = true.
Proof.
  unfold FS.is_dir_at, FS.node_at. intros Hk Hx.
  destruct x as [|a x]; [reflexivity|].
  destruct k as [|b k]; [discriminate|].
  destruct (decide (b :: k = a :: x)) as [->|Hne].
  - by rewrite lookup_insert_eq.
  - by rewrite lookup_insert_ne.
Qed.

Lemma writable_is_dir f k : FS.writable_at f k = true -> FS.is_dir_at f k = true.
Proof.
  unfold FS.writable_at, FS.is_dir_at.
  by destruct (FS.node_at f k) as [[|]|].
Qed.

Lemma walk_is_dir f p : forall cur k,
  p <> [] -> FS.walk f cur p = Ok k -> FS.is_dir_at f cur = true.
Proof.
  destruct p as [|c rest]; [done|]. intros cur k _. simpl.
  unfold FS.is_dir_at. by destruct (FS.node_at f cur) as [[|]|].
Qed.

Lemma walk_app f p q : forall cur,
  FS.walk f cur (p ++ q) = rbind (FS.walk f cur p) (fun k => FS.walk f k q).
Proof.
  induction p as [|c p IH]; intros cur; simpl; [reflexivity|].
  destruct (FS.node_at f cur) as [[|]|]; auto.
Qed.

(** A path that resolves to a directory needs no creation. *)
Lemma mkdir_from_existing f p : forall cur k,
  FS.walk f cur p = Ok k -> FS.is_dir_at f k = true ->
  FS.mkdir_from f cur p = Ok f.
Proof.
  induction p as [|c rest IH]; intros cur k Hw Hk; simpl in *; [reflexivity|].
  destruct (FS.node_at f cur) as [[|w]|] eqn:Hc; try discriminate.
  assert (Hd : FS.is_dir_at f (FS.step cur c) = true).
  { destruct rest as [|c' rest'].
    - simpl in Hw. by inversion Hw; subst.
    - by apply (walk_is_dir f (c' :: rest') _ k). }
  unfold FS.is_dir_at in Hd.
  destruct (FS.node_at f (FS.step cur c)) as [[|w']|] eqn:E; try discriminate.
  by apply (IH _ k).
Qed.

Lemma mkdir_p_existing f p : FS.is_dir f p = true -> FS.mkdir_p f p = Ok f.
Proof.
  unfold FS.is_dir, FS.stat, FS.mkdir_p. intros H.
  destruct (FS.walk f [] p) as [k|e] eqn:Hw; [|discriminate].
  apply (mkdir_from_existing f p [] k Hw).
  unfold FS.is_dir_at. by destruct (FS.node_at f k) as [[|]|].
Qed.

(** Creation never removes or replaces a directory. *)
Lemma mkdir_from_keeps_dirs p : forall f cur f' x,
  FS.mkdir_from f cur p = Ok f' ->
  FS.is_dir_at f x = true -> FS.is_dir_at f' x = true.
Proof.
  induction p as [|c rest IH]; intros f cur f' x Hm Hx; simpl in Hm.
  - by inversion Hm; subst.
  - destruct (FS.node_at f (FS.step cur c)) as [[|w]|] eqn:E; try discriminate.
    + by apply (IH _ _ _ _ Hm).
    + destruct (FS.writable_at f cur); [|discriminate].
      apply (IH _ _ _ _ Hm). by apply node_at_insert_dir.
Qed.


(** After a successful creation the path resolves to a directory. *)
Lemma mkdir_from_walk p : forall f cur f',
  FS.is_dir_at f cur = true ->
  FS.mkdir_from f cur p = Ok f' ->
  exists k, FS.walk f' cur p = Ok k /\ FS.is_dir_at f' k = true.
Proof.
  induction p as [|c rest IH]; intros f cur f' Hcur Hm.
  - simpl in Hm. inversion Hm; subst. by exists cur.
  - assert (Hcur' : FS.is_dir_at f' cur = true)
      by (by apply (mkdir_from_keeps_dirs _ _ _ _ _ Hm)).
    simpl in *. unfold FS.is_dir_at in Hcur'.
    destruct (FS.node_at f' cur) as [[|w0]|]; try discriminate.
    destruct (FS.node_at f (FS.step cur c)) as [[|w]|] eqn:E; try discriminate.
    + apply (IH f); [|done]. unfold FS.is_dir_at. by rewrite E.
    + destruct (FS.writable_at f cur); [|discriminate].
      apply (IH (<[FS.step cur c := Dir true]> f)); [|done].
      unfold FS.is_dir_at, FS.node_at.
      destruct (FS.step cur c); [done|]. by rewrite lookup_insert_eq.
Qed.

Lemma mkdir_p_is_dir f p f' : FS.mkdir_p f p = Ok f' -> FS.is_dir f' p = true.
Proof.
  intros Hm. destruct (mkdir_from_walk p f [] f') as (k & Hw & Hk); [done..|].
  unfold FS.is_dir, FS.stat. rewrite Hw. unfold FS.is_dir_at in Hk.
  by destruct (FS.node_at f' k) as [[|]|].
Qed.

Lemma is_dir_exists f p : FS.is_dir f p = true -> FS.exists_ f p = true.
Proof.
  unfold FS.is_dir, FS.exists_. by destruct (FS.stat f p) as [[|]|].
Qed.

(** Whatever exists in a destination that is not a regular file lies in
    a directory. *)
Lemma exists_join_is_dir f d name :
  FS.is_file f d = false ->
  FS.exists_ f (FS.join d name) = true ->
  FS.is_dir f d = true.
Proof.
  unfold FS.join. intros Hf He.
  destruct (decide (name = "" \/ name = ".")) as [_|_].
  - unfold FS.is_file in Hf. unfold FS.exists_ in He. unfold FS.is_dir.
    by destruct (FS.stat f d) as [[|]|].
  - unfold FS.exists_, FS.stat in He. rewrite walk_app in He.
    unfold FS.is_dir, FS.stat.
    destruct (FS.walk f [] d) as [k|e]; simpl in He; [|done].
    by destruct (FS.node_at f k) as [[|]|].
Qed.

(** ** Properties of the Fetcher *)

Lemma set_fs_same w : set_fs (fs w) w = w.
Proof. by destruct w. Qed.

Lemma ensure_dir_fail d w e :
  FS.mkdir_p (fs w) d = Err e -> ensure_dir d w = (Err e, w).
Proof.
  intros H. unfold ensure_dir, bind, mkdir_parents_exist_ok. by rewrite H.
Qed.

Lemma download_file_mkdir_fail url d w e :
  FS.mkdir_p (fs w) d = Err e -> download_file url d w = (Err e, w).
Proof.
  intros H. unfold download_file, bind. by rewrite (ensure_dir_fail _ _ _ H).
Qed.

Lemma download_file_found url d w f :
  FS.mkdir_p (fs w) d = Ok f ->
  FS.exists_ f (target d url) = true ->
  download_file url d w
  = (Ok (target d url), add_log (INFO, msg_exists (target d url)) (set_fs f w)).
Proof.
  intros Hm He.
  unfold download_file, ensure_dir, bind, mkdir_parents_exist_ok, path_exists.
  rewrite Hm. simpl. unfold target in He. by rewrite He.
Qed.

Ltac case_run :=
  repeat match goal with
    | H : (_, _) = (_, _) |- _ => inversion H; subst; clear H
    | H : context [match ?x with _ => _ end] |- _ => destruct x eqn:?
    | H : context [if ?x then _ else _] |- _ => destruct x eqn:?
    end.

(** A successful download returns the target path, whatever the world. *)
Lemma download_file_returns_target url d w p w' :
  download_file url d w = (Ok p, w') -> p = target d url.
Proof.
  unfold download_file, ensure_dir, bind, mkdir_parents_exist_ok, path_exists,
    logger_info, ret, target.
  intros H. case_run; done.
Qed.

Lemma split_endswith c s :
  PyStr.endswith c s = true -> exists h l, PyStr.split c s = h :: l ++ [""].
Proof.
  induction s as [|a t IH]; simpl; [discriminate|].
  destruct t as [|b r].
  - intros ->. by exists "", [].
  - intros H. destruct (IH H) as (h & l & E). rewrite E.
    destruct (Ascii.eqb a c).
    + by exists "", (h :: l).
    + by exists (String a h), l.
Qed.

Lemma url_filename_slash url :
  PyStr.endswith slash url = true -> url_filename url = "".
Proof.
  intros H. destruct (split_endswith _ _ H) as (h & l & E).
  unfold url_filename, PyStr.last_item. rewrite E.
  change (h :: l ++ [""]) with ((h :: l) ++ [""]). apply last_last.
Qed.

(** C1: when the destination is not itself a regular file and the file at
    [out_dir / last segment of url] already exists, [download_file] issues
    no GET, returns that path, and changes nothing in the file system (so
    the existing file keeps its contents); its only effect is one INFO
    log record. *)
Theorem C1_download_file_skips_existing url out_dir w :
  FS.is_file (fs w) out_dir = false ->
  FS.exists_ (fs w) (FS.join out_dir (url_filename url)) = true ->
  exists w',
    download_file url out_dir w = (Ok (FS.join out_dir (url_filename url)), w')
    /\ requests w' = requests w
    /\ fs w' = fs w
    /\ (forall p, FS.stat (fs w') p = FS.stat (fs w) p)
    /\ log w' = log w ++ [(INFO, msg_exists (FS.join out_dir (url_filename url)))].
Proof.
  intros Hf He.
  pose proof (exists_join_is_dir _ _ _ Hf He) as Hd.
  pose proof (mkdir_p_existing _ _ Hd) as Hm.
  eexists. split.
  - apply (download_file_found url out_dir w (fs w) Hm He).
  - rewrite set_fs_same. by destruct w.
Qed.

(** C10: for a URL ending in "/", the last segment is empty and the target
    is [out_dir] itself; once [ensure_dir] has made that directory the
    existence check succeeds, so [download_file] returns [out_dir] having
    issued no GET, whatever the remote end would answer.  The only other
    outcome is the error [ensure_dir] itself raises, which leaves the
    world as it was. *)
Theorem C10_trailing_slash_url_returns_out_dir url out_dir w :
  PyStr.endswith slash url = true ->
  url_filename url = ""
  /\ FS.join out_dir (url_filename url) = out_dir
  /\ match FS.mkdir_p (fs w) out_dir with
     | Ok f =>
         FS.exists_ f out_dir = true
         /\ download_file url out_dir w
            = (Ok out_dir, add_log (INFO, msg_exists out_dir) (set_fs f w))
     | Err e => download_file url out_dir w = (Err e, w)
     end
  /\ requests (snd (download_file url out_dir w)) = requests w.
Proof.
  intros Hs. pose proof (url_filename_slash url Hs) as Hn.
  assert (Hj : FS.join out_dir (url_filename url) = out_dir).
  { rewrite Hn. unfold FS.join. destruct (decide ("" = "" \/ "" = ".")) as [|n];
      [done|]. exfalso. apply n. by left. }
  split; [done|]. split; [done|].
  destruct (FS.mkdir_p (fs w) out_dir) as [f|e] eqn:Hm.
  - pose proof (is_dir_exists _ _ (mkdir_p_is_dir _ _ _ Hm)) as He.
    assert (Hdl := download_file_found url out_dir w f Hm).
    unfold target in Hdl. rewrite Hj in Hdl. specialize (Hdl He).
    rewrite Hdl. by destruct w.
  - by rewrite (download_file_mkdir_fail url out_dir w e Hm).
Qed.

(** *** The batch *)

(** The body of the loop of [download_many]. *)
Lemma download_many_body_ok url d acc w p w1 :
  download_file url d w = (Ok p, w1) ->
  try_except
    (p <- download_file url d ;; ret (acc ++ [p]))
    (fun exc =>
       logger_error ("Error descargando " +:+ url +:+ ": " +:+ exn_msg exc) ;;;
       ret acc) w
  = (Ok (acc ++ [p]), w1).
Proof. intros H. unfold try_except, bind, ret. by rewrite H. Qed.

Lemma download_many_body_err url d acc w e w1 :
  download_file url d w = (Err e, w1) ->
  try_except
    (p <- download_file url d ;; ret (acc ++ [p]))
    (fun exc =>
       logger_error ("Error descargando " +:+ url +:+ ": " +:+ exn_msg exc) ;;;
       ret acc) w
  = (Ok acc, add_log (ERROR, msg_error url e) w1).
Proof. intros H. unfold try_except, bind, ret, logger_error. by rewrite H. Qed.

Lemma download_many_loop d urls : forall acc w,
  exists outcomes w',
    for_each urls
      (fun results url =>
         try_except
           (p <- download_file url d ;; ret (results ++ [p]))
           (fun exc =>
              logger_error ("Error descargando " +:+ url +:+ ": " +:+ exn_msg exc) ;;;
              ret results))
      acc w
    = (Ok (acc ++ successes outcomes), w')
    /\ attempts d urls w outcomes w'.
Proof.
  induction urls as [|u us IH]; intros acc w.
  - exists [], w. simpl. rewrite app_nil_r. split; [done|constructor].
  - cbn [for_each]. unfold bind at 1.
    destruct (download_file u d w) as [[p|e] w1] eqn:Hd.
    + rewrite (download_many_body_ok _ _ _ _ _ _ Hd).
      destruct (IH (acc ++ [p]) w1) as (os & w' & Hf & Ha).
      exists ((u, Ok p) :: os), w'. split.
      * rewrite Hf. simpl. by rewrite <- app_assoc.
      * by eapply attempts_ok.
    + rewrite (download_many_body_err _ _ _ _ _ _ Hd).
      destruct (IH acc (add_log (ERROR, msg_error u e) w1)) as (os & w' & Hf & Ha).
      exists ((u, Err e) :: os), w'. split; [done|].
      by eapply attempts_err.
Qed.

Lemma attempts_urls d urls w outcomes w' :
  attempts d urls w outcomes w' -> map fst outcomes = urls.
Proof. induction 1; simpl; congruence. Qed.

Lemma attempts_targets d urls w outcomes w' :
  attempts d urls w outcomes w' ->
  successes outcomes = map (target d) (successful_urls outcomes).
Proof.
  induction 1 as [|u us w p w1 os w2 Hd _ IH|]; simpl; [done| |done].
  by rewrite (download_file_returns_target _ _ _ _ _ Hd), IH.
Qed.

Lemma successful_urls_sublist outcomes :
  sublist (successful_urls outcomes) (map fst outcomes).
Proof.
  induction outcomes as [|[u [p|e]] os IH]; simpl.
  - constructor.
  - by apply sublist_skip.
  - by apply sublist_cons.
Qed.

(** C2: [download_many] never raises.  It hands every URL of the list, in
    the order given, to [download_file] (one recorded outcome per URL);
    a failing URL is logged and skipped and the following ones are still
    tried; the list returned is exactly the targets of the URLs that
    succeeded, in their input order. *)
Theorem C2_download_many_isolates_failures urls out_dir w :
  exists outcomes w',
    download_many urls out_dir w = (Ok (successes outcomes), w')
    /\ attempts out_dir urls w outcomes w'
    /\ map fst outcomes = urls
    /\ successes outcomes = map (target out_dir) (successful_urls outcomes)
    /\ sublist (successful_urls outcomes) urls.
Proof.
  destruct (download_many_loop out_dir urls [] w) as (os & w' & Hf & Ha).
  exists os, w'. repeat split.
  - unfold download_many, bind at 1. by rewrite Hf.
  - done.
  - by eapply attempts_urls.
  - by eapply attempts_targets.
  - rewrite <- (attempts_urls _ _ _ _ _ Ha). apply successful_urls_sublist.
Qed.

(** ** Properties of the Scene Preparer *)

Lemma prefix_of_app n b : PyStr.prefix_of n (n +:+ b) = true.
Proof.
  induction n as [|a n IH]; [reflexivity|].
  rewrite sapp_cons. simpl. by rewrite Ascii.eqb_refl, IH.
Qed.

Lemma contains_prefix n s : PyStr.prefix_of n s = true -> PyStr.contains n s = true.
Proof. intros H. destruct s; simpl; by rewrite H. Qed.

Lemma contains_app_l n a s :
  PyStr.contains n s = true -> PyStr.contains n (a +:+ s) = true.
Proof.
  intros H. induction a as [|c a IH]; [done|].
  rewrite sapp_cons. simpl. rewrite IH. apply orb_true_r.
Qed.

Lemma contains_middle n a b : PyStr.contains n (a +:+ n +:+ b) = true.
Proof. apply contains_app_l, contains_prefix, prefix_of_app. Qed.

(** C5: [select_variable] fails exactly when the name is absent from the
    variable mapping of the dataset; the failure is a [KeyError] (a
    [LookupError]) whose message contains the requested name; when the
    name is present the result is the field stored under it. *)
Theorem C5_select_variable_lookup (ds : Dataset) (var_name : string) :
  match ds !! var_name with
  | None =>
      exists msg,
        select_variable ds var_name = Err (Raise KeyError msg)
        /\ is_LookupError KeyError = true
        /\ PyStr.contains var_name msg = true
  | Some da => select_variable ds var_name = Ok da
  end
  /\ is_Ok (select_variable ds var_name) = bool_decide (is_Some (ds !! var_name)).
Proof.
  unfold select_variable, XR.contains, XR.getitem.
  destruct (ds !! var_name) as [da|] eqn:E.
  - by rewrite bool_decide_eq_true_2 by eauto.
  - rewrite bool_decide_eq_false_2 by (intros [? ?]; done). simpl.
    split; [|done]. eexists. split; [reflexivity|]. split; [done|].
    apply contains_middle.
Qed.

(** C4: [prepare_scene] is the composition of [open_goes_scene],
    [select_variable] and [subset_domain], in that order: an error of the
    opening is the result, otherwise an error of the selection is the
    result, otherwise the result is that of the subsetting; no field is
    produced when an earlier step fails. *)
Theorem C4_prepare_scene_is_composition
  (xr_open_dataset : Path -> result Dataset)
  (path : Path) (var_name : string) (lat_bounds lon_bounds : Q * Q)
  (lat_name lon_name : string) :
  prepare_scene xr_open_dataset path var_name lat_bounds lon_bounds lat_name lon_name
  = composed_scene xr_open_dataset path var_name lat_bounds lon_bounds lat_name lon_name
  /\ match open_goes_scene xr_open_dataset path with
     | Err e =>
         prepare_scene xr_open_dataset path var_name lat_bounds lon_bounds
           lat_name lon_name = Err e
     | Ok ds =>
         match select_variable ds var_name with
         | Err e =>
             prepare_scene xr_open_dataset path var_name lat_bounds lon_bounds
               lat_name lon_name = Err e
         | Ok da =>
             prepare_scene xr_open_dataset path var_name lat_bounds lon_bounds
               lat_name lon_name
             = subset_domain da lat_bounds lon_bounds lat_name lon_name
         end
     end.
Proof.
  assert (Hc : prepare_scene xr_open_dataset path var_name lat_bounds lon_bounds
                 lat_name lon_name
               = composed_scene xr_open_dataset path var_name lat_bounds
                   lon_bounds lat_name lon_name).
  { unfold prepare_scene, composed_scene.
    destruct (open_goes_scene xr_open_dataset path) as [ds|e]; simpl; [|done].
    destruct (select_variable ds var_name) as [da|e]; simpl; [|done].
    by destruct (subset_domain da lat_bounds lon_bounds lat_name lon_name). }
  split; [exact Hc|]. rewrite Hc. unfold composed_scene.
  destruct (open_goes_scene xr_open_dataset path) as [ds|e]; [|done].
  by destruct (select_variable ds var_name).
Qed.

(** *** Label slices on a sorted index *)

(** ** Conversion to binary32 keeps the order *)







Lemma pow2_succ e : (2 ^ (e + 1) == 2 * 2 ^ e)%Q.
Proof. rewrite Qpower_plus by done. change (2 ^ 1)%Q with 2%Q. ring. Qed.















(** 0.3 is not a binary32 number; the nearest one is a little above
    it.  A binary64 bound is taken as it is. *)
Example cast_three_tenths :
  (cast Float32 (3 # 10) == 5033165 # 16777216)%Q
  /\ (3 # 10 < cast Float32 (3 # 10))%Q
  /\ cast Float64 (3 # 10) = (3 # 10)%Q.
Proof. split; [by vm_compute|]. split; [by vm_compute|reflexivity]. Qed.



Lemma Qle_bool_false x y : Qle_bool x y = false -> (y < x)%Q.
Proof.
  intros H. apply Qnot_le_lt. intros Hle. apply Qle_bool_iff in Hle. congruence.
Qed.

Lemma Qle_bool_true x y : Qle_bool x y = true -> (x <= y)%Q.
Proof. apply Qle_bool_iff. Qed.

Lemma Qle_bool_intro x y : (x <= y)%Q -> Qle_bool x y = true.
Proof. apply Qle_bool_iff. Qed.

Lemma Qlt_bool_true x y : Index.Qlt_bool x y = true -> (x < y)%Q.
Proof.
  unfold Index.Qlt_bool. intros H. apply negb_true_iff in H.
  by apply Qle_bool_false.
Qed.

Lemma Qlt_bool_false x y : Index.Qlt_bool x y = false -> (y <= x)%Q.
Proof.
  unfold Index.Qlt_bool. intros H. apply negb_false_iff in H.
  by apply Qle_bool_true.
Qed.

Lemma increasing_cons c r :
  Index.is_monotonic_increasing (c :: r) = true ->
  Index.is_monotonic_increasing r = true
  /\ match r with b :: _ => (c <= b)%Q | [] => True end.
Proof.
  simpl. destruct r as [|b r']; [done|].
  intros H. apply andb_true_iff in H as [H1 H2].
  split; [done|]. by apply Qle_bool_true.
Qed.

(** Past a label above [hi], a sorted index has nothing up to [hi]. *)
Lemma searchsorted_right_tail c r hi :
  Index.is_monotonic_increasing (c :: r) = true ->
  Qle_bool c hi = false ->
  Index.searchsorted r hi Index.Right = 0.
Proof.
  intros Hs Hc. apply increasing_cons in Hs as [_ Hb].
  destruct r as [|b r']; [done|]. simpl.
  apply Qle_bool_false in Hc.
  destruct (Qle_bool b hi) eqn:E; [|done].
  apply Qle_bool_true in E. lra.
Qed.

(** Past a label not below [lo], a sorted index has nothing below [lo]. *)
Lemma searchsorted_left_tail c r lo :
  Index.is_monotonic_increasing (c :: r) = true ->
  Index.Qlt_bool c lo = false ->
  Index.searchsorted r lo Index.Left = 0.
Proof.
  intros Hs Hc. apply increasing_cons in Hs as [_ Hb].
  destruct r as [|b r']; [done|]. simpl.
  apply Qlt_bool_false in Hc.
  destruct (Index.Qlt_bool b lo) eqn:E; [|done].
  apply Qlt_bool_true in E. lra.
Qed.

Lemma in_bounds_spec b c :
  in_bounds b c = negb (Index.Qlt_bool c (fst b)) && Qle_bool c (snd b).
Proof.
  unfold in_bounds, Index.Qlt_bool. by rewrite negb_involutive.
Qed.

(** On an ascending index the positions between the two insertion points
    are exactly the labels within the bounds. *)
Lemma slice_is_filter l : forall lo hi,
  Index.is_monotonic_increasing l = true ->
  py_slice (Index.searchsorted l lo Index.Left)
           (Index.searchsorted l hi Index.Right) l
  = List.filter (in_bounds (lo, hi)) l.
Proof.
  induction l as [|c r IH]; intros lo hi Hs; [done|].
  pose proof (increasing_cons _ _ Hs) as [Hr _].
  specialize (IH lo hi Hr).
  cbn [List.filter Index.searchsorted Index.before].
  rewrite in_bounds_spec; cbn [fst snd].
  destruct (Index.Qlt_bool c lo) eqn:Elo; cbn [negb andb].
  - destruct (Qle_bool c hi) eqn:Ehi.
    + rewrite <- IH. reflexivity.
    + rewrite <- IH, (searchsorted_right_tail _ _ _ Hs Ehi). reflexivity.
  - rewrite (searchsorted_left_tail _ _ _ Hs Elo) in IH.
    destruct (Qle_bool c hi) eqn:Ehi.
    + rewrite <- IH. unfold py_slice. simpl. by rewrite Nat.sub_0_r.
    + rewrite <- IH, (searchsorted_right_tail _ _ _ Hs Ehi). reflexivity.
Qed.


Lemma searchsorted_le l v s : Index.searchsorted l v s <= length l.
Proof.
  induction l as [|c r IH]; simpl; [lia|].
  destruct (Index.before s c v); simpl; lia.
Qed.


(** *** Axes of a field *)

Lemma find_axis_lookup name axes : forall i a,
  XR.find_axis name axes = Some (i, a) -> axes !! i = Some a /\ ax_name a = name.
Proof.
  induction axes as [|x r IH]; intros i a; simpl; [done|].
  destruct (decide (ax_name x = name)) as [Hx|Hx].
  - intros [= <- <-]. done.
  - destruct (XR.find_axis name r) as [[k b]|]; [|done].
    intros [= <- <-]. simpl. by apply IH.
Qed.

Lemma find_axis_alter name (f : axis -> axis) i axes :
  (forall a, ax_name (f a) = ax_name a) ->
  XR.find_axis name (alter f i axes)
  = match XR.find_axis name axes with
    | Some (k, a) => Some (k, if decide (k = i) then f a else a)
    | None => None
    end.
Proof.
  intros Hf. revert i. induction axes as [|x r IH]; intros i; [done|].
  destruct i as [|i]; simpl.
  - rewrite Hf. destruct (decide (ax_name x = name)); [done|].
    destruct (XR.find_axis name r) as [[k b]|]; done.
  - destruct (decide (ax_name x = name)); [done|].
    change (list_alter f i r) with (alter f i r). rewrite IH.
    destruct (XR.find_axis name r) as [[k b]|]; [|done].
    destruct (decide (k = i)), (decide (S k = S i)); try done; lia.
Qed.

Lemma find_axis_distinct axes n1 n2 i j a b :
  n1 <> n2 ->
  XR.find_axis n1 axes = Some (i, a) ->
  XR.find_axis n2 axes = Some (j, b) ->
  i <> j.
Proof.
  intros Hn H1 H2 ->.
  apply find_axis_lookup in H1 as [H1 <-], H2 as [H2 <-]. congruence.
Qed.

Lemma dict_literal_two {V} (k1 k2 : string) (v1 v2 : V) :
  dict_literal [(k1, v1); (k2, v2)]
  = if decide (k1 = k2) then [(k1, v2)] else [(k1, v1); (k2, v2)].
Proof. unfold dict_literal. simpl. by destruct (decide (k1 = k2)). Qed.





(** *** Sorted indexes *)

Lemma increasing_sorted l :
  Index.is_monotonic_increasing l = true <-> StronglySorted Qle l.
Proof.
  induction l as [|c r IH].
  - split; [constructor|done].
  - rewrite StronglySorted_cons. split.
    + intros H. apply increasing_cons in H as [Hr Hb].
      apply IH in Hr. split; [|done].
      destruct r as [|b r']; [constructor|].
      apply StronglySorted_cons in Hr as [Hall _].
      constructor; [done|].
      eapply Forall_impl; [exact Hall|]. intros x Hx. simpl in Hx. lra.
    + intros [Hall Hr]. apply IH in Hr. simpl.
      destruct r as [|b r']; [done|].
      apply andb_true_iff. split; [|done].
      apply Qle_bool_intro. by inversion Hall.
Qed.

Lemma decreasing_sorted l :
  Index.is_monotonic_decreasing l = true <-> StronglySorted Q_ge l.
Proof.
  induction l as [|c r IH].
  - split; [constructor|done].
  - rewrite StronglySorted_cons. split.
    + intros H. simpl in H. destruct r as [|b r']; [split; constructor|].
      apply andb_true_iff in H as [Hb Hr]. apply Qle_bool_true in Hb.
      apply IH in Hr. split; [|done].
      apply StronglySorted_cons in Hr as [Hall _].
      constructor; [done|].
      eapply Forall_impl; [exact Hall|]. unfold Q_ge. intros x Hx. simpl in Hx. lra.
    + intros [Hall Hr]. apply IH in Hr. simpl.
      destruct r as [|b r']; [done|].
      apply andb_true_iff. split; [|done].
      apply Qle_bool_intro. by inversion Hall.
Qed.

Lemma sorted_reverse l : StronglySorted Q_ge l -> StronglySorted Qle (reverse l).
Proof.
  induction l as [|c r IH]; [constructor|].
  rewrite StronglySorted_cons, reverse_cons. intros [Hall Hr].
  apply StronglySorted_app. split; [|split].
  - intros x1 x2 Hx1 Hx2. apply list_elem_of_singleton in Hx2 as ->.
    apply (proj1 (elem_of_reverse _ _)) in Hx1.
    rewrite Forall_forall in Hall. exact (Hall x1 Hx1).
  - by apply IH.
  - repeat constructor.
Qed.



Lemma in_bounds_true b c :
  in_bounds b c = true <-> (fst b <= c)%Q /\ (c <= snd b)%Q.
Proof.
  unfold in_bounds. rewrite andb_true_iff, <- !Qle_bool_iff. done.
Qed.


(** Slicing a reversed list. *)
Lemma slice_reverse {A} (l : list A) a b :
  a <= length l -> b <= length l ->
  py_slice (length l - a) (length l - b) l = reverse (py_slice b a (reverse l)).
Proof.
  intros Ha Hb. unfold py_slice.
  rewrite drop_reverse, take_reverse, reverse_involutive.
  rewrite length_take, Nat.min_l by lia.
  destruct (decide (b <= a)) as [Hba|Hba].
  - rewrite take_drop_commute.
    replace (length l - a + (length l - b - (length l - a)))
      with (length l - b) by lia.
    by replace (length l - b - (a - b)) with (length l - a) by lia.
  - replace (length l - b - (length l - a)) with 0 by lia.
    replace (a - b) with 0 by lia. rewrite Nat.sub_0_r.
    rewrite (drop_ge (take (length l - b) l)) by (rewrite length_take; lia).
    by rewrite take_0.
Qed.





(** *** Label slices on an index that is not sorted *)

















(** *** Subsetting what is already a subset *)

Lemma sel_one_inv da dim b da1 :
  XR.sel_one da dim b = Ok da1 ->
  exists i a s t,
    XR.find_axis dim (da_axes da) = Some (i, a)
    /\ Index.slice_indexer (ax_coords a)
         (fst (cast_bounds (ax_dtype a) b)) (snd (cast_bounds (ax_dtype a) b))
       = Ok (s, t)
    /\ da1 = XR.isel da i s t.
Proof.
  unfold XR.sel_one, cast_bounds. cbn [fst snd]. intros H.
  destruct (XR.find_axis dim (da_axes da)) as [[i a]|] eqn:Hf; [|done].
  destruct (Index.slice_indexer (ax_coords a) (cast (ax_dtype a) (fst b))
              (cast (ax_dtype a) (snd b))) as [[s t]|] eqn:Hs;
    simpl in H; [|done].
  injection H as <-. by exists i, a, s, t.
Qed.

Lemma find_axis_isel da k s t dim :
  XR.find_axis dim (da_axes (XR.isel da k s t))
  = match XR.find_axis dim (da_axes da) with
    | Some (i, a) =>
        Some (i, if decide (i = k)
                 then Axis (ax_name a) (ax_dtype a) (py_slice s t (ax_coords a)) else a)
    | None => None
    end.
Proof. unfold XR.isel. cbn [da_axes]. by rewrite find_axis_alter. Qed.







(** ** Properties of the Renderer *)

(** *** Writing one file *)


Lemma node_at_insert_file (f : filesystem) k c x :
  k <> [] -> x <> k ->
  FS.node_at (<[k := File c]> f) x = FS.node_at f x.
Proof.
  intros Hk Hx. unfold FS.node_at. destruct x; [done|].
  by rewrite lookup_insert_ne.
Qed.

(** Putting a regular file where there was no directory does not change
    the resolution of a path that resolved. *)
Lemma walk_insert_file (f : filesystem) k c p : forall cur k',
  k <> [] -> FS.is_dir_at f k = false ->
  FS.walk f cur p = Ok k' ->
  FS.walk (<[k := File c]> f) cur p = Ok k'.
Proof.
  induction p as [|x rest IH]; intros cur k' Hk Hnd Hw; [done|].
  simpl in *.
  destruct (FS.node_at f cur) as [[|w]|] eqn:E; try discriminate.
  assert (cur <> k) as Hne.
  { intros ->. unfold FS.is_dir_at in Hnd. by rewrite E in Hnd. }
  rewrite node_at_insert_file, E by done. by apply IH.
Qed.

Lemma open_wb_inv f p k f2 :
  FS.open_wb f p = Ok (k, f2) ->
  FS.walk f [] p = Ok k /\ k <> [] /\ FS.is_dir_at f k = false
  /\ f2 = <[k := File []]> f.
Proof.
  unfold FS.open_wb. intros H.
  destruct (FS.walk f [] p) as [k0|] eqn:Hw; [|done].
  assert (Hk : (k0 = k /\ f2 = <[k := File []]> f)
               /\ FS.is_dir_at f k0 = false).
  { unfold FS.is_dir_at.
    destruct (FS.node_at f k0) as [[|w]|] eqn:E; try discriminate.
    - by injection H as <- <-.
    - destruct (FS.writable_at f (removelast k0)); [|done].
      by injection H as <- <-. }
  destruct Hk as [[-> ->] Hnd]. repeat split; try done.
  intros ->. by unfold FS.is_dir_at in Hnd.
Qed.

Lemma write_file_effect f p k f2 img :
  FS.open_wb f p = Ok (k, f2) ->
  FS.walk (FS.append f2 k img) [] p = Ok k
  /\ FS.append f2 k img !! k = Some (File img)
  /\ FS.stat (FS.append f2 k img) p = Some (File img)
  /\ (forall k', k' <> k -> FS.append f2 k img !! k' = f !! k')
  /\ (forall q, FS.is_dir f q = true -> FS.is_dir (FS.append f2 k img) q = true).
Proof.
  intros Ho. apply open_wb_inv in Ho as (Hw & Hk & Hnd & ->).
  assert (Happ : FS.append (<[k := File []]> f) k img = <[k := File img]> f).
  { unfold FS.append. rewrite lookup_insert_eq. simpl. by rewrite insert_insert_eq. }
  rewrite Happ.
  pose proof (walk_insert_file f k img p [] k Hk Hnd Hw) as Hw'.
  assert (Hlk : (<[k := File img]> f : filesystem) !! k = Some (File img))
    by (by rewrite lookup_insert_eq).
  split; [done|]. split; [done|]. split; [|split].
  - unfold FS.stat. rewrite Hw'. unfold FS.node_at. by destruct k.
  - intros k' Hne. by rewrite lookup_insert_ne.
  - intros q. unfold FS.is_dir, FS.stat.
    destruct (FS.walk f [] q) as [kq|] eqn:Hq; [|done].
    rewrite (walk_insert_file f k img q [] kq Hk Hnd Hq).
    destruct (FS.node_at f kq) as [[|w]|] eqn:E; try done. intros _.
    rewrite node_at_insert_file, E; [done..|].
    intros ->. unfold FS.is_dir_at in Hnd. by rewrite E in Hnd.
Qed.


(** *** The figure registry *)

Lemma fresh_fig_not_open w : fresh_fig w ∉ figures w.
Proof.
  unfold fresh_fig. intros H. apply max_list_elem_of_le in H. lia.
Qed.

Lemma close_fresh (figs : list nat) n :
  n ∉ figs ->
  List.filter (fun m => negb (m =? n)) (figs ++ [n]) = figs.
Proof.
  intros Hn. rewrite List.filter_app. simpl. rewrite Nat.eqb_refl. simpl.
  rewrite app_nil_r. induction figs as [|m r IH]; [done|].
  simpl. apply not_elem_of_cons in Hn as [Hm Hr].
  destruct (Nat.eqb_spec m n); [congruence|]. simpl. by rewrite IH.
Qed.

(** *** Every branch of a call *)

Ltac engine_step :=
  cbn [draw_all app fig_cmds fig_num fig_size set_io fs requests remote
       log stdout figures shown set_figures set_fs add_stdout add_shown
       io_fs io_requests fst snd].

Lemma plot_goes_scene_run
  draw_call render show_backend da extent cmap title flight_track
  save_path show w :
  plot_goes_scene draw_call render show_backend da extent cmap title
    flight_track save_path show w
  = scene_outcome draw_call render show_backend da extent cmap title
      flight_track save_path show w.
Proof.
  unfold plot_goes_scene, scene_outcome, scene_figure, scene_cmds,
    shown_or_closed, figure_opened.
  unfold savefig, draw.
  unfold bind, engine, plt_figure, ret, raise, mkdir_parents_exist_ok,
    open_wb, file_write, print, plt_close, plt_show, io_of.
  destruct extent as [e|], flight_track as [[lons lats]|], title as [t|];
    engine_step;
    repeat match goal with
      | |- context [draw_call ?a ?b ?io] =>
          destruct (draw_call a b io) as [[[]|?] [? ?]] eqn:?;
          engine_step; [|reflexivity]
      end;
    (destruct save_path as [p|];
     [|destruct show; [|reflexivity]; engine_step;
       match goal with
       | |- context [show_backend ?a ?b] =>
           by destruct (show_backend a b) as [[? ?] [? ?]]
       end]);
    engine_step;
    match goal with
    | |- context [FS.mkdir_p ?f ?q] =>
        destruct (FS.mkdir_p f q) as [f1|]; [|reflexivity]
    end;
    engine_step;
    match goal with
    | |- context [render ?a ?b ?c ?io] =>
        destruct (render a b c io) as [[img|?] [? ?]]; engine_step;
        [|reflexivity]
    end;
    match goal with
    | |- context [FS.open_wb ?f ?q] =>
        destruct (FS.open_wb f q) as [[k f3]|]; [|reflexivity]
    end;
    engine_step;
    (destruct show; [|reflexivity]); engine_step;
    match goal with
    | |- context [show_backend ?a ?b] =>
        by destruct (show_backend a b) as [[? ?] [? ?]]
    end.
Qed.

(** *** Where the figure is saved *)

Lemma savefig_target_parent p : FS.parent (savefig_target p) = FS.parent p.
Proof. unfold savefig_target, FS.parent. apply removelast_last. Qed.


Lemma open_wb_parent_is_dir f p k f2 :
  FS.open_wb f p = Ok (k, f2) -> FS.is_dir f (FS.parent p) = true.
Proof.
  intros Ho. apply open_wb_inv in Ho as (Hw & Hk & _).
  destruct (decide (p = [])) as [->|Hp]; [simpl in Hw; congruence|].
  rewrite (app_removelast_last "" Hp), walk_app in Hw.
  unfold FS.is_dir, FS.stat, FS.parent.
  destruct (FS.walk f [] (removelast p)) as [k'|]; [|done].
  simpl in Hw. by destruct (FS.node_at f k') as [[|]|].
Qed.

Lemma set_io_of w : set_io (io_of w) w = w.
Proof. by destruct w. Qed.

(** What a call that saves and does not show leaves, given the steps it
    took. *)
Lemma plot_goes_scene_saves
  draw_call render show_backend da extent cmap title flight_track p w
  io1 f1 img io2 k f3 :
  draw_all draw_call [] (scene_cmds da extent cmap title flight_track) (io_of w)
  = (None, io1) ->
  FS.mkdir_p (io_fs io1) (FS.parent p) = Ok f1 ->
  render (scene_figure w da extent cmap title flight_track)
         (FS.str (savefig_target p)) 150%Z (EngineIO f1 (io_requests io1))
  = (Ok img, io2) ->
  FS.open_wb (io_fs io2) (savefig_target p) = Ok (k, f3) ->
  exists w',
    plot_goes_scene draw_call render show_backend da extent cmap title
      flight_track (Some p) false w = (Ok tt, w')
    /\ fs w' = FS.append f3 k img
    /\ FS.is_dir (fs w') (FS.parent p) = true
    /\ FS.walk (fs w') [] (savefig_target p) = Ok k
    /\ FS.stat (fs w') (savefig_target p) = Some (File img)
    /\ (forall k', k' <> k -> fs w' !! k' = io_fs io2 !! k')
    /\ requests w' = io_requests io2
    /\ stdout w' = stdout w ++ [msg_saved p]
    /\ figures w' = figures w
    /\ shown w' = shown w
    /\ log w' = log w.
Proof.
  intros Hd Hm Hr Ho.
  rewrite plot_goes_scene_run. unfold scene_outcome.
  rewrite Hd. cbv zeta. rewrite Hm, Hr, Ho.
  eexists. split; [reflexivity|].
  destruct (write_file_effect _ _ _ _ img Ho) as (Hw & Hk & Hst & Hoth & Hdir).
  unfold shown_or_closed, figure_opened, msg_saved.
  cbn [fs requests stdout figures shown log set_io set_fs set_figures
       add_stdout].
  split; [done|]. split.
  { apply Hdir. rewrite <- savefig_target_parent.
    by eapply open_wb_parent_is_dir. }
  repeat (split; [done|]). split; [|done].
  apply close_fresh, fresh_fig_not_open.
Qed.

(** A call that saves and does not show returns normally exactly when the
    engine draws and renders the scene, the parent directory can be made
    and the file can be opened. *)
Lemma plot_goes_scene_returns_iff
  draw_call render show_backend da extent cmap title flight_track save_path w :
  (exists w',
     plot_goes_scene draw_call render show_backend da extent cmap title
       flight_track (Some save_path) false w = (Ok tt, w'))
  <-> (exists io1 f1 img io2 k f3,
         draw_all draw_call [] (scene_cmds da extent cmap title flight_track)
           (io_of w) = (None, io1)
         /\ FS.mkdir_p (io_fs io1) (FS.parent save_path) = Ok f1
         /\ render (scene_figure w da extent cmap title flight_track)
                   (FS.str (savefig_target save_path)) 150%Z
                   (EngineIO f1 (io_requests io1)) = (Ok img, io2)
         /\ FS.open_wb (io_fs io2) (savefig_target save_path) = Ok (k, f3)).
Proof.
  split.
  - intros (w' & H). rewrite plot_goes_scene_run in H.
    unfold scene_outcome in H.
    destruct (draw_all draw_call [] (scene_cmds da extent cmap title flight_track)
                (io_of w)) as [[e|] io1]; [done|].
    cbv zeta in H.
    destruct (FS.mkdir_p (io_fs io1) (FS.parent save_path)) as [f1|] eqn:Hm;
      [|done].
    destruct (render (scene_figure w da extent cmap title flight_track)
                (FS.str (savefig_target save_path)) 150%Z
                (EngineIO f1 (io_requests io1))) as [[img|] io2] eqn:Hr;
      [|done].
    destruct (FS.open_wb (io_fs io2) (savefig_target save_path))
      as [[k f3]|] eqn:Ho; [|done].
    by exists io1, f1, img, io2, k, f3.
  - intros (io1 & f1 & img & io2 & k & f3 & Hd & Hm & Hr & Ho).
    destruct (plot_goes_scene_saves draw_call render show_backend _ _ _ _ _ _ _
                _ _ _ _ _ _ Hd Hm Hr Ho) as (w' & Hrun & _).
    by exists w'.
Qed.


(** ** The Fetcher: one download, step by step *)

Lemma write_chunks_content (chunks : list bytes) : forall (f : filesystem) k c0,
  f !! k = Some (File c0) ->
  write_chunks f k chunks = <[k := File (c0 ++ concat chunks)]> f.
Proof.
  unfold write_chunks.
  induction chunks as [|c r IH]; intros f k c0 Hk; simpl.
  - rewrite app_nil_r. symmetry. by apply insert_id.
  - destruct c as [|b c].
    + by apply IH.
    + unfold FS.append at 2. rewrite Hk.
      rewrite (IH _ k (c0 ++ b :: c)) by apply lookup_insert_eq.
      by rewrite insert_insert_eq, <- app_assoc.
Qed.

Lemma write_body_run k resp f w0 :
  write_body k resp (set_fs f w0)
  = (match resp_abort resp with Some e => Err e | None => Ok tt end,
     set_fs (write_chunks f k (resp_chunks resp)) w0).
Proof.
  unfold write_body, write_chunks, bind.
  assert (Hloop : forall chunks f,
    for_each chunks
      (fun (_ : unit) chunk =>
         match chunk with [] => ret tt | _ :: _ => file_write k chunk end)
      tt (set_fs f w0)
    = (Ok tt,
       set_fs (fold_left
                 (fun f chunk =>
                    match chunk with [] => f | _ => FS.append f k chunk end)
                 chunks f) w0)).
  { induction chunks as [|c r IH]; intros f'; [done|].
    cbn [for_each fold_left]. unfold bind.
    destruct c as [|b c]; [apply IH|].
    unfold file_write. apply IH. }
  rewrite Hloop. by destruct (resp_abort resp).
Qed.

(** Everything [download_file] can do, by cases on what it meets. *)
Lemma download_file_run url out_dir w :
  download_file url out_dir w
  = match FS.mkdir_p (fs w) out_dir with
    | Err e => (Err e, w)
    | Ok f1 =>
        let t := target out_dir url in
        if FS.exists_ f1 t
        then (Ok t, add_log (INFO, msg_exists t) (set_fs f1 w))
        else
          let w1 := requested url out_dir f1 w in
          match remote w (requests w) url with
          | Err e => (Err e, w1)
          | Ok resp =>
              if bad_status resp then (Err (Raise HTTPError url), w1)
              else
                match FS.open_wb f1 t with
                | Err e => (Err e, w1)
                | Ok (k, f2) =>
                    let f3 := write_chunks f2 k (resp_chunks resp) in
                    match resp_abort resp with
                    | Some e => (Err e, set_fs f3 w1)
                    | None => (Ok t, add_log (INFO, msg_done t) (set_fs f3 w1))
                    end
                end
          end
    end.
Proof.
  unfold download_file, ensure_dir, bind at 1 2, mkdir_parents_exist_ok.
  destruct (FS.mkdir_p (fs w) out_dir) as [f1|e]; [|done].
  cbn [ret]. unfold bind at 1, path_exists. cbn [fs set_fs].
  fold (target out_dir url). cbv zeta.
  destruct (FS.exists_ f1 (target out_dir url)); [done|].
  unfold bind at 1, logger_info. unfold bind at 1, requests_get.
  cbn [remote requests add_log set_fs].
  destruct (remote w (requests w) url) as [resp|e]; [|done].
  unfold bind at 1, raise_for_status. fold (bad_status resp).
  destruct (bad_status resp); [done|]. cbn [ret].
  unfold bind at 1, open_wb. cbn [fs add_request add_log set_fs].
  destruct (FS.open_wb f1 (target out_dir url)) as [[k f2]|e]; [|done].
  unfold bind at 1.
  change (set_fs f2
            (add_request url
               (add_log (INFO, "Descargando " +:+ url +:+ " -> "
                                 +:+ FS.str (target out_dir url))
                  (set_fs f1 w))))
    with (set_fs f2 (requested url out_dir f1 w)).
  rewrite write_body_run.
  by destruct (resp_abort resp).
Qed.

Lemma write_chunks_append f p k f2 chunks :
  FS.open_wb f p = Ok (k, f2) ->
  write_chunks f2 k chunks = FS.append f2 k (concat chunks).
Proof.
  intros Ho. apply open_wb_inv in Ho as (_ & _ & _ & ->).
  rewrite (write_chunks_content chunks _ k []) by apply lookup_insert_eq.
  unfold FS.append. by rewrite lookup_insert_eq.
Qed.

(** The run of a download whose target is missing, in terms of the
    outcome of the request. *)
Lemma download_file_missing_run url out_dir w f1 :
  FS.mkdir_p (fs w) out_dir = Ok f1 ->
  FS.exists_ f1 (target out_dir url) = false ->
  download_file url out_dir w
  = match request_outcome w url with
    | Err e => (Err e, requested url out_dir f1 w)
    | Ok resp =>
        match FS.open_wb f1 (target out_dir url) with
        | Err e => (Err e, requested url out_dir f1 w)
        | Ok (k, f2) =>
            let f3 := FS.append f2 k (concat (resp_chunks resp)) in
            match resp_abort resp with
            | Some e => (Err e, set_fs f3 (requested url out_dir f1 w))
            | None =>
                (Ok (target out_dir url),
                 add_log (INFO, msg_done (target out_dir url))
                   (set_fs f3 (requested url out_dir f1 w)))
            end
        end
    end.
Proof.
  intros Hm He. rewrite download_file_run, Hm. cbv zeta. rewrite He.
  unfold request_outcome.
  destruct (remote w (requests w) url) as [resp|e]; [|done].
  destruct (bad_status resp); [done|].
  destruct (FS.open_wb f1 (target out_dir url)) as [[k f2]|e] eqn:Ho; [|done].
  by rewrite (write_chunks_append _ _ _ _ _ Ho).
Qed.

(** ** Where file-system errors go *)









(** ** The theorems at concrete inputs *)

(** With [data/a.nc] already there, nothing is requested and the file
    keeps its byte. *)
Lemma C1_witness_cached_file :
  exists w',
    download_file "https://host/goes/a.nc" ["data"] Examples.cached_world
    = (Ok ["data"; "a.nc"], w')
    /\ requests w' = []
    /\ fs w' = fs Examples.cached_world
    /\ FS.stat (fs w') ["data"; "a.nc"] = Some (File [Byte.x2a]).
Proof.
  destruct (C1_download_file_skips_existing
              "https://host/goes/a.nc" ["data"] Examples.cached_world)
    as (w' & Hrun & Hreq & Hfs & Hstat & _); [reflexivity|reflexivity|].
  exists w'. split; [exact Hrun|]. split; [exact Hreq|]. split; [exact Hfs|].
  rewrite Hstat. reflexivity.
Defined.

(** A URL ending in "/" on an empty file system: [data] is made and
    returned, nothing is requested. *)
Lemma C10_witness_trailing_slash :
  url_filename "https://host/goes/" = ""
  /\ download_file "https://host/goes/" ["data"] Examples.empty_world
     = (Ok ["data"],
        add_log (INFO, msg_exists ["data"])
          (set_fs (<[ ["data"] := Dir true ]> ∅) Examples.empty_world))
  /\ requests (snd (download_file "https://host/goes/" ["data"]
                      Examples.empty_world)) = [].
Proof.
  destruct (C10_trailing_slash_url_returns_out_dir
              "https://host/goes/" ["data"] Examples.empty_world)
    as (Hname & _ & Hrun & Hreq); [reflexivity|].
  split; [exact Hname|]. split; [|exact Hreq].
  change (FS.mkdir_p (fs Examples.empty_world) ["data"])
    with (@Ok filesystem (<[ ["data"] := Dir true ]> ∅)) in Hrun.
  exact (proj2 Hrun).
Defined.

(** One failing URL among three: the two others are downloaded, in
    order, and the failure is logged. *)
Example download_many_one_failure :
  let r := download_many
             ["https://host/goes/a.nc"; "https://host/goes/missing.nc";
              "https://host/goes/b.nc"]
             ["data"] Examples.empty_world in
  fst r = Ok [["data"; "a.nc"]; ["data"; "b.nc"]]
  /\ requests (snd r)
     = ["https://host/goes/a.nc"; "https://host/goes/missing.nc";
        "https://host/goes/b.nc"]
  /\ FS.stat (fs (snd r)) ["data"; "b.nc"]
     = Some (File [Byte.x01; Byte.x02; Byte.x03])
  /\ FS.exists_ (fs (snd r)) ["data"; "missing.nc"] = false.
Proof. by vm_compute. Qed.





(** Why the bounds are taken with min <= max: on a descending axis a
    pair given as (max, min) selects the labels in between, and the
    one-label result, read as an ascending index, is emptied by the same
    pair. *)
Example subset_domain_inverted_bounds :
  subset_domain Examples.descending_field (4.5, 3.5)%Q (-85, -75)%Q "y" "x"
  = Ok (XR.isel (XR.isel Examples.descending_field 0 1 2) 1 1 3)
  /\ da_axes (XR.isel (XR.isel Examples.descending_field 0 1 2) 1 1 3)
     = [Axis "y" Float64 [4%Q]; Axis "x" Float64 [-80; -75]%Q]
  /\ exists da2,
       subset_domain (XR.isel (XR.isel Examples.descending_field 0 1 2) 1 1 3)
         (4.5, 3.5)%Q (-85, -75)%Q "y" "x" = Ok da2
       /\ da_axes da2 = [Axis "y" Float64 []; Axis "x" Float64 [-80; -75]%Q].
Proof.
  split; [reflexivity|]. split; [reflexivity|].
  eexists. split; reflexivity.
Qed.



(** * Further properties of the three modules *)

(** ** The Fetcher: one download, its outcomes *)

(** X1: a download that meets no obstacle.  When the directory can be
    made, the target is missing, the remote end answers with a status
    outside 400..599 and streams its body to the end, and the file can be
    opened, [download_file] returns the target having issued exactly one
    GET, for this URL; the file at the target then holds the chunks of
    the body, concatenated in order, and nothing else in the directory
    tree has changed. *)
Theorem X1_download_file_writes_the_body
  (url : string) (out_dir : Path) (w : world) (f1 f2 : filesystem)
  (resp : response) (k : list string) :
  FS.mkdir_p (fs w) out_dir = Ok f1 ->
  FS.exists_ f1 (target out_dir url) = false ->
  request_outcome w url = Ok resp ->
  resp_abort resp = None ->
  FS.open_wb f1 (target out_dir url) = Ok (k, f2) ->
  exists w',
    download_file url out_dir w = (Ok (target out_dir url), w')
    /\ requests w' = requests w ++ [url]
    /\ FS.stat (fs w') (target out_dir url)
       = Some (File (concat (resp_chunks resp)))
    /\ (forall k', k' <> k -> fs w' !! k' = f1 !! k')
    /\ log w' = log w ++ [(INFO, msg_start url (target out_dir url));
                          (INFO, msg_done (target out_dir url))].
Proof.
  intros Hm He Hr Ha Ho.
  rewrite (download_file_missing_run _ _ _ _ Hm He), Hr, Ho. cbv zeta.
  rewrite Ha. eexists. split; [reflexivity|].
  destruct (write_file_effect _ _ _ _ (concat (resp_chunks resp)) Ho)
    as (_ & _ & Hst & Hoth & _).
  split; [done|]. split; [exact Hst|]. split; [exact Hoth|].
  cbn [log add_log set_fs requested add_request]. by rewrite <- app_assoc.
Qed.

(** X2: a request that fails creates no file.  When the target is
    missing and the GET fails, or is answered with a status in 400..599,
    [download_file] raises that error after one GET; the file system is
    the one [ensure_dir] left, and the target still does not exist. *)
Theorem X2_failed_request_creates_no_file
  (url : string) (out_dir : Path) (w : world) (f1 : filesystem) (e : exn) :
  FS.mkdir_p (fs w) out_dir = Ok f1 ->
  FS.exists_ f1 (target out_dir url) = false ->
  request_outcome w url = Err e ->
  exists w',
    download_file url out_dir w = (Err e, w')
    /\ requests w' = requests w ++ [url]
    /\ fs w' = f1
    /\ FS.exists_ (fs w') (target out_dir url) = false.
Proof.
  intros Hm He Hr.
  rewrite (download_file_missing_run _ _ _ _ Hm He), Hr.
  eexists. split; [reflexivity|]. by repeat split.
Qed.

Lemma stat_exists f p n : FS.stat f p = Some n -> FS.exists_ f p = true.
Proof. unfold FS.exists_. by intros ->. Qed.

Lemma download_file_skips url out_dir w :
  FS.is_dir (fs w) out_dir = true ->
  FS.exists_ (fs w) (target out_dir url) = true ->
  download_file url out_dir w
  = (Ok (target out_dir url), add_log (INFO, msg_exists (target out_dir url)) w).
Proof.
  intros Hd He.
  rewrite (download_file_found url out_dir w (fs w)
             (mkdir_p_existing _ _ Hd) He).
  by rewrite set_fs_same.
Qed.

(** X3: a transfer cut in mid-stream leaves its part behind, and the part
    is then taken for the file.  When the body breaks off with an error,
    [download_file] raises it and the target holds the chunks received so
    far; a later call for the same URL finds the target, issues no GET
    and returns it. *)
Theorem X3_interrupted_download_is_kept
  (url : string) (out_dir : Path) (w : world) (f1 f2 : filesystem)
  (resp : response) (k : list string) (e : exn) :
  FS.mkdir_p (fs w) out_dir = Ok f1 ->
  FS.exists_ f1 (target out_dir url) = false ->
  request_outcome w url = Ok resp ->
  resp_abort resp = Some e ->
  FS.open_wb f1 (target out_dir url) = Ok (k, f2) ->
  exists w',
    download_file url out_dir w = (Err e, w')
    /\ FS.stat (fs w') (target out_dir url)
       = Some (File (concat (resp_chunks resp)))
    /\ exists w'',
         download_file url out_dir w' = (Ok (target out_dir url), w'')
         /\ requests w'' = requests w'
         /\ fs w'' = fs w'.
Proof.
  intros Hm He Hr Ha Ho.
  rewrite (download_file_missing_run _ _ _ _ Hm He), Hr, Ho. cbv zeta.
  rewrite Ha. eexists. split; [reflexivity|].
  destruct (write_file_effect _ _ _ _ (concat (resp_chunks resp)) Ho)
    as (_ & _ & Hst & _ & Hdir).
  split; [exact Hst|]. eexists. split.
  - apply download_file_skips.
    + apply Hdir. by eapply mkdir_p_is_dir.
    + by eapply stat_exists.
  - done.
Qed.

(** X4: [download_file] is idempotent.  After a call that returned a
    path, a second call with the same arguments returns the same path,
    issues no GET and leaves the file system as it is; it only logs that
    the file exists. *)
Theorem X4_download_file_twice
  (url : string) (out_dir : Path) (w w' : world) (p : Path) :
  download_file url out_dir w = (Ok p, w') ->
  exists w'',
    download_file url out_dir w' = (Ok p, w'')
    /\ requests w'' = requests w'
    /\ fs w'' = fs w'
    /\ log w'' = log w' ++ [(INFO, msg_exists p)].
Proof.
  intros Hrun. pose proof (download_file_returns_target _ _ _ _ _ Hrun) as ->.
  assert (Hok : FS.is_dir (fs w') out_dir = true
                /\ FS.exists_ (fs w') (target out_dir url) = true).
  { rewrite download_file_run in Hrun.
    destruct (FS.mkdir_p (fs w) out_dir) as [f1|] eqn:Hm; [|done].
    pose proof (mkdir_p_is_dir _ _ _ Hm) as Hd. cbv zeta in Hrun.
    destruct (FS.exists_ f1 (target out_dir url)) eqn:He.
    { injection Hrun as <-. by split. }
    destruct (remote w (requests w) url) as [resp|]; [|done].
    destruct (bad_status resp); [done|].
    destruct (FS.open_wb f1 (target out_dir url)) as [[k f2]|] eqn:Ho; [|done].
    destruct (resp_abort resp); [done|]. injection Hrun as <-.
    cbn [fs add_log set_fs]. rewrite (write_chunks_append _ _ _ _ _ Ho).
    destruct (write_file_effect _ _ _ _ (concat (resp_chunks resp)) Ho)
      as (_ & _ & Hst & _ & Hdir).
    split; [by apply Hdir|by eapply stat_exists]. }
  destruct Hok as [Hd He]. rewrite (download_file_skips _ _ _ Hd He).
  eexists. split; [reflexivity|]. by repeat split.
Qed.

(** ** The Fetcher: what a call never does *)

Lemma node_at_None_lookup (f : filesystem) k :
  FS.node_at f k = None -> f !! k = None.
Proof. by destruct k. Qed.

Lemma mkdir_from_subseteq p : forall (f : filesystem) cur f',
  FS.mkdir_from f cur p = Ok f' -> f ⊆ f'.
Proof.
  induction p as [|c rest IH]; intros f cur f' Hm; simpl in Hm.
  - by injection Hm as <-.
  - destruct (FS.node_at f (FS.step cur c)) as [[|b]|] eqn:E; try discriminate.
    + by eapply IH.
    + destruct (FS.writable_at f cur); [|discriminate].
      etrans; [|by eapply IH].
      by apply insert_subseteq, node_at_None_lookup.
Qed.

Lemma open_wb_missing f p k f2 :
  FS.exists_ f p = false -> FS.open_wb f p = Ok (k, f2) -> f !! k = None.
Proof.
  intros He Ho. apply open_wb_inv in Ho as (Hw & _ & _ & _).
  unfold FS.exists_, FS.stat in He. rewrite Hw in He.
  apply node_at_None_lookup. by destruct (FS.node_at f k).
Qed.

Lemma written_subseteq f p k f2 data :
  FS.exists_ f p = false -> FS.open_wb f p = Ok (k, f2) ->
  f ⊆ FS.append f2 k data.
Proof.
  intros He Ho. pose proof (open_wb_missing _ _ _ _ He Ho) as Hk.
  apply open_wb_inv in Ho as (_ & _ & _ & ->).
  unfold FS.append. rewrite lookup_insert_eq, insert_insert_eq.
  by apply insert_subseteq.
Qed.

Lemma download_file_subseteq url out_dir w :
  fs w ⊆ fs (snd (download_file url out_dir w)).
Proof.
  rewrite download_file_run.
  destruct (FS.mkdir_p (fs w) out_dir) as [f1|] eqn:Hm; [|done].
  pose proof (mkdir_from_subseteq _ _ _ _ Hm) as Hsub. cbv zeta.
  destruct (FS.exists_ f1 (target out_dir url)) eqn:He; [done|].
  destruct (remote w (requests w) url) as [resp|]; [|done].
  destruct (bad_status resp); [done|].
  destruct (FS.open_wb f1 (target out_dir url)) as [[k f2]|] eqn:Ho; [|done].
  rewrite (write_chunks_append _ _ _ _ _ Ho).
  pose proof (written_subseteq _ _ _ _ (concat (resp_chunks resp)) He Ho).
  destruct (resp_abort resp); cbn [snd fs add_log set_fs]; by etrans.
Qed.

Lemma attempts_subseteq d urls w outcomes w' :
  attempts d urls w outcomes w' -> fs w ⊆ fs w'.
Proof.
  induction 1 as [|u us w p w1 os w2 Hd _ IH|u us w e w1 os w2 Hd _ IH];
    [done|..].
  - etrans; [|exact IH].
    pose proof (download_file_subseteq u d w) as H. by rewrite Hd in H.
  - etrans; [|exact IH].
    pose proof (download_file_subseteq u d w) as H. by rewrite Hd in H.
Qed.

(** X5: the Fetcher only adds to the file system.  Whatever happens
    (success, skip or failure, at any URL), every file and directory that
    existed before a call of [download_file] or of [download_many] is
    still there afterwards, with the same contents: nothing is
    overwritten, truncated or removed. *)
Theorem X5_fetcher_only_adds_entries
  (urls : list string) (url : string) (out_dir : Path) (w : world) :
  fs w ⊆ fs (snd (download_file url out_dir w))
  /\ fs w ⊆ fs (snd (download_many urls out_dir w)).
Proof.
  split; [apply download_file_subseteq|].
  destruct (download_many_loop out_dir urls [] w) as (os & w' & Hf & Ha).
  unfold download_many, bind at 1. rewrite Hf. simpl.
  by eapply attempts_subseteq.
Qed.

Lemma download_file_requests url out_dir w :
  requests (snd (download_file url out_dir w)) = requests w
  \/ requests (snd (download_file url out_dir w)) = requests w ++ [url].
Proof.
  rewrite download_file_run.
  destruct (FS.mkdir_p (fs w) out_dir) as [f1|]; [|by left]. cbv zeta.
  destruct (FS.exists_ f1 (target out_dir url)); [by left|]. right.
  destruct (remote w (requests w) url) as [resp|]; [|done].
  destruct (bad_status resp); [done|].
  destruct (FS.open_wb f1 (target out_dir url)) as [[k f2]|]; [|done].
  by destruct (resp_abort resp).
Qed.

Lemma attempts_requests d urls w outcomes w' :
  attempts d urls w outcomes w' ->
  exists sent, sublist sent urls /\ requests w' = requests w ++ sent.
Proof.
  induction 1 as [|u us w p w1 os w2 Hd _ IH|u us w e w1 os w2 Hd _ IH].
  - exists []. split; [constructor|by rewrite app_nil_r].
  - destruct IH as (sent & Hs & Hr).
    destruct (download_file_requests u d w) as [H|H]; rewrite Hd in H;
      simpl in H; rewrite H in Hr.
    + exists sent. split; [by apply sublist_cons|done].
    + exists (u :: sent). split; [by apply sublist_skip|].
      by rewrite Hr, <- app_assoc.
  - destruct IH as (sent & Hs & Hr). cbn [requests add_log] in Hr.
    destruct (download_file_requests u d w) as [H|H]; rewrite Hd in H;
      simpl in H; rewrite H in Hr.
    + exists sent. split; [by apply sublist_cons|done].
    + exists (u :: sent). split; [by apply sublist_skip|].
      by rewrite Hr, <- app_assoc.
Qed.

(** X6: the GETs of a batch.  [download_many] requests only URLs of its
    list, each at most once per occurrence and in the order of the list:
    the requests it adds are a sublist of [urls]. *)
Theorem X6_download_many_requests_a_sublist
  (urls : list string) (out_dir : Path) (w : world) :
  exists sent,
    sublist sent urls
    /\ requests (snd (download_many urls out_dir w)) = requests w ++ sent.
Proof.
  destruct (download_many_loop out_dir urls [] w) as (os & w' & Hf & Ha).
  unfold download_many, bind at 1. rewrite Hf. simpl.
  by eapply attempts_requests.
Qed.

(** X7: [ensure_dir] makes the directory and is idempotent.  After a call
    that returns, the path returned is the one given and it is a
    directory; the call added entries only; and a second call returns
    again and changes nothing. *)
Theorem X7_ensure_dir_twice (path p : Path) (w w' : world) :
  ensure_dir path w = (Ok p, w') ->
  p = path
  /\ FS.is_dir (fs w') path = true
  /\ fs w ⊆ fs w'
  /\ ensure_dir path w' = (Ok path, w').
Proof.
  unfold ensure_dir, bind, mkdir_parents_exist_ok, ret.
  destruct (FS.mkdir_p (fs w) path) as [f|] eqn:Hm; [|done].
  intros [= <- <-]. cbn [fs set_fs].
  pose proof (mkdir_p_is_dir _ _ _ Hm) as Hd.
  split; [done|]. split; [done|].
  split; [by eapply mkdir_from_subseteq|].
  by rewrite (mkdir_p_existing _ _ Hd).
Qed.

(** ** File names out of URLs *)

Lemma contains_char_cons c a s :
  PyStr.contains (String c "") (String a s)
  = Ascii.eqb c a || PyStr.contains (String c "") s.
Proof. simpl. by rewrite andb_true_r. Qed.

Lemma split_segments_no_sep sep s :
  Forall (fun seg => PyStr.contains (String sep "") seg = false)
         (PyStr.split sep s).
Proof.
  induction s as [|a t IH]; simpl; [by repeat constructor|].
  destruct (Ascii.eqb_spec a sep) as [->|Hne].
  - by constructor.
  - pose proof (split_nonempty sep t) as Hs.
    destruct (PyStr.split sep t) as [|h r]; [done|].
    inversion IH as [|? ? Hh Hr]; subst. constructor; [|done].
    rewrite contains_char_cons, Hh, orb_false_r.
    apply Ascii.eqb_neq. congruence.
Qed.

Lemma last_cons_nonempty {A} (x : A) l d : l <> [] -> List.last (x :: l) d = List.last l d.
Proof. by destruct l. Qed.

Lemma last_app_nonempty {A} (l1 l2 : list A) d :
  l2 <> [] -> List.last (l1 ++ l2) d = List.last l2 d.
Proof.
  intros H. induction l1 as [|x l1 IH]; [done|].
  change ((x :: l1) ++ l2) with (x :: (l1 ++ l2)).
  rewrite last_cons_nonempty; [done|]. by destruct l1, l2.
Qed.

Lemma last_in_Forall {A} (P : A -> Prop) l d :
  l <> [] -> Forall P l -> P (List.last l d).
Proof.
  induction l as [|x r IH]; [done|]. intros _ H.
  inversion H as [|? ? Hx Hr]; subst.
  destruct r as [|y r']; [done|].
  rewrite last_cons_nonempty by done. by apply IH.
Qed.

(** A string is what precedes its last segment, followed by the
    segment; what precedes is empty or ends with the separator. *)
Lemma split_last_decompose sep s :
  exists pre,
    s = pre +:+ List.last (PyStr.split sep s) ""
    /\ match PyStr.split sep s with
       | [_] => pre = ""
       | _ => PyStr.endswith sep pre = true
       end.
Proof.
  induction s as [|a t (pre & Ht & Hpre)]; [by exists ""|].
  pose proof (split_nonempty sep t) as Hne. simpl.
  destruct (Ascii.eqb_spec a sep) as [->|Hne'].
  - exists (String sep pre). rewrite last_cons_nonempty by done.
    rewrite sapp_cons, <- Ht. split; [done|].
    destruct (PyStr.split sep t) as [|h [|h' r]]; [done|..].
    + subst pre. simpl. apply Ascii.eqb_refl.
    + destruct pre as [|b pre']; [done|exact Hpre].
  - destruct (PyStr.split sep t) as [|h [|h' r]] eqn:E; [done|..].
    + subst pre. exists "". simpl in *. by subst t.
    + exists (String a pre). rewrite sapp_cons. split.
      * rewrite Ht at 1. reflexivity.
      * destruct pre as [|b pre']; [done|exact Hpre].
Qed.

(** X8: the file name [download_file] derives from a URL is its last
    "/"-separated segment: the URL is some prefix, empty or ending in
    "/", followed by the name; the name contains no "/"; hence the target
    is [out_dir] itself or one entry directly inside it. *)
Theorem X8_url_filename_is_the_last_segment (url : string) (out_dir : Path) :
  (exists pre,
     url = pre +:+ url_filename url
     /\ (pre = "" \/ PyStr.endswith slash pre = true))
  /\ PyStr.contains "/" (url_filename url) = false
  /\ (target out_dir url = out_dir
      \/ target out_dir url = out_dir ++ [url_filename url]).
Proof.
  split; [|split].
  - destruct (split_last_decompose slash url) as (pre & Hu & Hpre).
    exists pre. split; [exact Hu|].
    destruct (PyStr.split slash url) as [|h [|h' r]]; auto.
  - unfold url_filename, PyStr.last_item.
    apply (last_in_Forall
             (fun seg => PyStr.contains (String slash "") seg = false)).
    + apply split_nonempty.
    + apply split_segments_no_sep.
  - unfold target, FS.join.
    destruct (decide (url_filename url = "" \/ url_filename url = "."));
      auto.
Qed.

Lemma split_app_sep sep a f :
  PyStr.split sep (a +:+ String sep f) = PyStr.split sep a ++ PyStr.split sep f.
Proof.
  induction a as [|x a IH].
  - rewrite sapp_nil_l. simpl. by rewrite Ascii.eqb_refl.
  - rewrite sapp_cons. simpl. rewrite IH.
    destruct (Ascii.eqb x sep); [done|].
    pose proof (split_nonempty sep a).
    by destruct (PyStr.split sep a).
Qed.

Lemma split_no_sep sep f :
  PyStr.contains (String sep "") f = false -> PyStr.split sep f = [f].
Proof.
  induction f as [|a t IH]; [done|].
  rewrite contains_char_cons. intros H.
  apply orb_false_iff in H as [Ha Ht]. simpl.
  rewrite Ascii.eqb_sym, Ha. by rewrite (IH Ht).
Qed.

(** X9: a URL built from a base and a file name is downloaded under that
    name.  The last segment of [build_goes_example_url base filename] is
    the last segment of [filename]; for a file name without "/" it is the
    file name itself, and the target of the download is
    [out_dir / filename]. *)
Theorem X9_built_url_is_saved_under_its_filename
  (base_url filename : string) (out_dir : Path) :
  url_filename (build_goes_example_url base_url filename) = url_filename filename
  /\ (PyStr.contains "/" filename = false ->
      url_filename (build_goes_example_url base_url filename) = filename
      /\ target out_dir (build_goes_example_url base_url filename)
         = FS.join out_dir filename).
Proof.
  assert (H : url_filename (build_goes_example_url base_url filename)
              = url_filename filename).
  { unfold url_filename, build_goes_example_url, PyStr.last_item, slash.
    change ("/" +:+ filename) with (String "/"%char filename).
    rewrite split_app_sep. apply last_app_nonempty, split_nonempty. }
  split; [exact H|]. intros Hf.
  assert (Hn : url_filename filename = filename).
  { unfold url_filename, PyStr.last_item, slash.
    by rewrite (split_no_sep _ _ Hf). }
  unfold target. by rewrite H, Hn.
Qed.

Lemma X9_witness_example_url :
  url_filename (build_goes_example_url "https://example.com/data/" "file.nc")
  = "file.nc"
  /\ target ["data"] (build_goes_example_url "https://example.com/data/" "file.nc")
     = ["data"; "file.nc"].
Proof.
  apply (X9_built_url_is_saved_under_its_filename
           "https://example.com/data/" "file.nc" ["data"]).
  reflexivity.
Defined.

(** ** The Scene Preparer: axes that are missing, shared or descending *)

Lemma sel_single da dim b :
  XR.sel da [(dim, b)] = XR.sel_one da dim b.
Proof. simpl. by destruct (XR.sel_one da dim b). Qed.

(** X10: [subset_domain] does not check that the named axes exist; a
    missing one surfaces as the [KeyError] of the engine, naming the
    axis.  This holds for a missing latitude axis, and for a missing
    longitude axis once the latitude slice has been found. *)
Theorem X10_subset_domain_missing_axis
  (da : DataArray) (lat_bounds lon_bounds : Q * Q) (lat_name lon_name : string) :
  (XR.find_axis lat_name (da_axes da) = None ->
   exists msg,
     subset_domain da lat_bounds lon_bounds lat_name lon_name
     = Err (Raise KeyError msg)
     /\ PyStr.contains lat_name msg = true)
  /\ (forall da1,
        XR.sel_one da lat_name lat_bounds = Ok da1 ->
        XR.find_axis lon_name (da_axes da) = None ->
        exists msg,
          subset_domain da lat_bounds lon_bounds lat_name lon_name
          = Err (Raise KeyError msg)
          /\ PyStr.contains lon_name msg = true).
Proof.
  destruct lat_bounds as [lat_min lat_max], lon_bounds as [lon_min lon_max].
  unfold subset_domain. rewrite dict_literal_two. split.
  - intros Hf.
    destruct (decide (lat_name = lon_name)) as [<-|Hne].
    + rewrite sel_single. unfold XR.sel_one. rewrite Hf.
      eexists. split; [reflexivity|]. apply contains_middle.
    + cbn [XR.sel]. unfold XR.sel_one at 1. rewrite Hf.
      eexists. split; [reflexivity|]. apply contains_middle.
  - intros da1 H1 Hf.
    destruct (decide (lat_name = lon_name)) as [<-|Hne].
    { apply sel_one_inv in H1 as (i & a & _ & _ & Hfi & _). congruence. }
    cbn [XR.sel]. rewrite H1. cbn [rbind].
    apply sel_one_inv in H1 as (i & a & s & t & _ & _ & ->).
    unfold XR.sel_one. rewrite find_axis_isel, Hf.
    eexists. split; [reflexivity|]. apply contains_middle.
Qed.

Lemma X10_witness_no_such_axis :
  exists msg,
    subset_domain Examples.scene_field (-5, 5)%Q (-85, -75)%Q "lat" "x"
    = Err (Raise KeyError msg)
    /\ PyStr.contains "lat" msg = true.
Proof.
  apply (X10_subset_domain_missing_axis
           Examples.scene_field (-5, 5)%Q (-85, -75)%Q "lat" "x").
  reflexivity.
Defined.

(** X11: when the same name is given for both axes, the dict literal of
    [subset_domain] keeps one entry, with the longitude slice: the
    latitude bounds are ignored and the axis is cut to the longitude
    bounds only. *)
Theorem X11_subset_domain_same_name_ignores_lat_bounds
  (da : DataArray) (lat_bounds lat_bounds' lon_bounds : Q * Q) (name : string) :
  subset_domain da lat_bounds lon_bounds name name
  = XR.sel_one da name lon_bounds
  /\ subset_domain da lat_bounds' lon_bounds name name
     = subset_domain da lat_bounds lon_bounds name name.
Proof.
  assert (H : forall b, subset_domain da b lon_bounds name name
                        = XR.sel_one da name lon_bounds).
  { intros [lo hi]. destruct lon_bounds as [lon_min lon_max].
    unfold subset_domain. rewrite dict_literal_two.
    destruct (decide (name = name)); [|done]. apply sel_single. }
  by rewrite !H.
Qed.

Lemma filter_reverse_bool {A} (f : A -> bool) l :
  List.filter f (reverse l) = reverse (List.filter f l).
Proof.
  induction l as [|x l IH]; [done|].
  rewrite reverse_cons, List.filter_app, IH. simpl.
  destruct (f x); [by rewrite reverse_cons|by rewrite app_nil_r].
Qed.

(** On a descending index a label slice keeps the labels from [lo] down
    to [hi]. *)
Lemma slice_descending l lo hi s t :
  Index.is_monotonic_increasing l = false ->
  Index.is_monotonic_decreasing l = true ->
  Index.slice_indexer l lo hi = Ok (s, t) ->
  py_slice s t l = List.filter (in_bounds (hi, lo)) l.
Proof.
  unfold Index.slice_indexer, Index.get_slice_bound. intros Hi Hd.
  rewrite Hi, Hd. simpl. intros [= <- <-].
  apply decreasing_sorted, sorted_reverse, increasing_sorted in Hd.
  rewrite slice_reverse
    by (rewrite <- (length_reverse l); apply searchsorted_le).
  rewrite slice_is_filter by done.
  by rewrite filter_reverse_bool, reverse_involutive.
Qed.

Lemma filter_in_bounds_empty lo hi l :
  (lo < hi)%Q -> List.filter (in_bounds (hi, lo)) l = [].
Proof.
  intros Hlt. induction l as [|c r IH]; [done|]. simpl.
  destruct (in_bounds (hi, lo) c) eqn:E; [|done].
  apply in_bounds_true in E as [H1 H2]. simpl in *. lra.
Qed.

Lemma slice_indexer_sorted l lo hi :
  is_monotonic l = true -> exists s t, Index.slice_indexer l lo hi = Ok (s, t).
Proof.
  unfold is_monotonic, Index.slice_indexer, Index.get_slice_bound. intros H.
  destruct (Index.is_monotonic_increasing l); simpl in *; [by eexists _, _|].
  rewrite H. simpl. by eexists _, _.
Qed.

(** X12: on a descending latitude axis, the longitude axis being sorted,
    [subset_domain] succeeds and keeps the labels [c] with
    lat_max <= c <= lat_min, the two bounds (each converted to the dtype
    of the axis) taken the other way round.  So with bounds whose
    conversions are in the order min < max, as any min < max is on a
    binary64 axis, the latitude axis of the result is empty. *)
Theorem X12_subset_domain_descending_axis
  (da : DataArray) (lat_bounds lon_bounds : Q * Q)
  (lat_name lon_name : string) (i j : nat) (a b : axis) :
  lat_name <> lon_name ->
  XR.find_axis lat_name (da_axes da) = Some (i, a) ->
  XR.find_axis lon_name (da_axes da) = Some (j, b) ->
  Index.is_monotonic_increasing (ax_coords a) = false ->
  Index.is_monotonic_decreasing (ax_coords a) = true ->
  is_monotonic (ax_coords b) = true ->
  exists da_sub a',
    subset_domain da lat_bounds lon_bounds lat_name lon_name = Ok da_sub
    /\ da_axes da_sub !! i = Some a'
    /\ ax_name a' = lat_name
    /\ ax_coords a'
       = List.filter
           (in_bounds (cast (ax_dtype a) (snd lat_bounds),
                       cast (ax_dtype a) (fst lat_bounds)))
           (ax_coords a)
    /\ ((cast (ax_dtype a) (fst lat_bounds)
         < cast (ax_dtype a) (snd lat_bounds))%Q ->
        ax_coords a' = [])
    /\ (ax_dtype a = Float64 -> (fst lat_bounds < snd lat_bounds)%Q ->
        ax_coords a' = []).
Proof.
  intros Hne Hf Hfj Hi Hd Hm.
  pose proof (find_axis_distinct _ _ _ _ _ _ _ Hne Hf Hfj) as Hij.
  assert (Hma : is_monotonic (ax_coords a) = true)
    by (unfold is_monotonic; by rewrite Hd, orb_true_r).
  destruct (slice_indexer_sorted (ax_coords a)
              (cast (ax_dtype a) (fst lat_bounds))
              (cast (ax_dtype a) (snd lat_bounds)) Hma) as (s1 & t1 & Hs1).
  destruct (slice_indexer_sorted (ax_coords b)
              (cast (ax_dtype b) (fst lon_bounds))
              (cast (ax_dtype b) (snd lon_bounds)) Hm) as (s2 & t2 & Hs2).
  exists (XR.isel (XR.isel da i s1 t1) j s2 t2),
         (Axis (ax_name a) (ax_dtype a) (py_slice s1 t1 (ax_coords a))).
  split.
  { destruct lat_bounds as [lat_min lat_max], lon_bounds as [lon_min lon_max].
    unfold subset_domain. rewrite dict_literal_two.
    destruct (decide (lat_name = lon_name)); [done|]. cbn [XR.sel].
    unfold XR.sel_one at 1. rewrite Hf. cbn [fst snd] in *.
    rewrite Hs1. cbn [rbind].
    unfold XR.sel_one. rewrite find_axis_isel, Hfj.
    destruct (decide (j = i)); [by subst|]. cbn [fst snd]. by rewrite Hs2. }
  apply find_axis_lookup in Hf as [Hli Hname].
  split; [|split; [done|]].
  - unfold XR.isel. cbn [da_axes].
    rewrite list_lookup_alter_ne by done.
    by rewrite list_lookup_alter_eq, Hli.
  - cbn [ax_coords]. rewrite (slice_descending _ _ _ _ _ Hi Hd Hs1).
    split; [done|]. split; [apply filter_in_bounds_empty|].
    intros E. rewrite E. apply filter_in_bounds_empty.
Qed.

(** The descending field with the bounds (2, 4): the call succeeds and
    no latitude label is left. *)
Lemma X12_witness_descending_field :
  exists da_sub a',
    subset_domain Examples.descending_field (2, 4)%Q (-85, -75)%Q "y" "x"
    = Ok da_sub
    /\ da_axes da_sub !! 0 = Some a'
    /\ ax_name a' = "y"
    /\ ax_coords a' = [].
Proof.
  destruct (X12_subset_domain_descending_axis
              Examples.descending_field
              (2, 4)%Q (-85, -75)%Q "y" "x" 0 1
              (Axis "y" Float64 [5; 4; 3; 2; 1]%Q)
              (Axis "x" Float64 [-90; -80; -75; -70]%Q))
    as (d & a' & Hrun & Hl & Hn & _ & He & _);
    [discriminate|reflexivity|reflexivity|reflexivity|reflexivity
    |reflexivity|].
  exists d, a'. split; [exact Hrun|]. split; [exact Hl|].
  split; [exact Hn|]. by apply He.
Defined.

(** X13: the two slices of [subset_domain] do not depend on their order.
    Giving the longitude axis and bounds first and the latitude axis and
    bounds second returns, when the first form returns, a field with the
    same name, the same axes and the same samples. *)
Theorem X13_subset_domain_axes_commute
  (da da_sub : DataArray) (lat_bounds lon_bounds : Q * Q)
  (lat_name lon_name : string) :
  lat_name <> lon_name ->
  subset_domain da lat_bounds lon_bounds lat_name lon_name = Ok da_sub ->
  exists da_sub',
    subset_domain da lon_bounds lat_bounds lon_name lat_name = Ok da_sub'
    /\ da_name da_sub' = da_name da_sub
    /\ da_axes da_sub' = da_axes da_sub
    /\ forall idx, da_values da_sub' idx = da_values da_sub idx.
Proof.
  intros Hne Hsub.
  destruct lat_bounds as [lat_min lat_max], lon_bounds as [lon_min lon_max].
  unfold subset_domain in *. rewrite dict_literal_two in *.
  destruct (decide (lat_name = lon_name)); [done|].
  destruct (decide (lon_name = lat_name)); [done|].
  cbn [XR.sel] in *.
  destruct (XR.sel_one da lat_name (lat_min, lat_max)) as [da1|] eqn:H1;
    [|done].
  cbn [rbind] in Hsub.
  destruct (XR.sel_one da1 lon_name (lon_min, lon_max)) as [da2|] eqn:H2;
    [|done].
  simpl in Hsub. injection Hsub as <-.
  apply sel_one_inv in H1 as (i & a & s1 & t1 & Hfi & Hs1 & ->).
  apply sel_one_inv in H2 as (j & a2 & s2 & t2 & Hfj & Hs2 & ->).
  unfold cast_bounds in Hs1, Hs2. cbn [fst snd] in Hs1, Hs2.
  assert (Hfi' : XR.find_axis lat_name (da_axes (XR.isel da i s1 t1))
                 = Some (i, Axis (ax_name a) (ax_dtype a) (py_slice s1 t1 (ax_coords a)))).
  { rewrite find_axis_isel, Hfi. by destruct (decide (i = i)). }
  pose proof (find_axis_distinct _ _ _ _ _ _ _ Hne Hfi' Hfj) as Hij.
  rewrite find_axis_isel in Hfj.
  destruct (XR.find_axis lon_name (da_axes da)) as [[j' aj]|] eqn:Hfj0;
    [|done].
  injection Hfj as -> <-. destruct (decide (j = i)) as [|_]; [by subst|].
  unfold XR.sel_one at 1. rewrite Hfj0. cbn [fst snd]. rewrite Hs2.
  cbn [rbind].
  unfold XR.sel_one. rewrite find_axis_isel, Hfi.
  destruct (decide (i = j)); [done|]. cbn [fst snd]. rewrite Hs1.
  cbn [rbind].
  eexists. split; [reflexivity|]. split; [done|]. split.
  - unfold XR.isel. cbn [da_axes]. by apply list_alter_alter_ne.
  - intros idx. unfold XR.isel. cbn [da_values]. f_equal.
    by apply list_alter_alter_ne.
Qed.

Lemma X13_witness_scene_field :
  exists da_sub',
    subset_domain Examples.scene_field (-85, -75)%Q (-5, 5)%Q "x" "y"
    = Ok da_sub'
    /\ da_axes da_sub' = [Axis "y" Float64 [-5; 0; 3; 5]%Q; Axis "x" Float64 [-80; -75]%Q].
Proof.
  destruct (X13_subset_domain_axes_commute
              Examples.scene_field
              (XR.isel (XR.isel Examples.scene_field 0 1 5) 1 1 3)
              (-5, 5)%Q (-85, -75)%Q "y" "x")
    as (d & Hrun & _ & Hax & _); [discriminate|reflexivity|].
  exists d. split; [exact Hrun|]. rewrite Hax. reflexivity.
Defined.

(** ** The Scene Preparer: the result is a rectangular window *)

Lemma py_slice_full {A} (l : list A) : py_slice 0 (length l) l = l.
Proof. unfold py_slice. by rewrite drop_0, Nat.sub_0_r, take_ge. Qed.

Lemma py_slice_of_full {A} (l : list A) s t :
  py_slice s t (py_slice 0 (length l) l) = py_slice s t l.
Proof. by rewrite py_slice_full. Qed.

Lemma full_windows_lookup da k :
  full_windows da !! k
  = (fun a => (0, length (ax_coords a))) <$> da_axes da !! k.
Proof. unfold full_windows. apply list_lookup_fmap. Qed.

Lemma is_window_full da : is_window da da (full_windows da).
Proof.
  split; [unfold full_windows; by rewrite length_map|].
  split; [done|]. split.
  - unfold window. cbn [da_axes]. apply list_eq. intros k.
    rewrite lookup_zip_with, full_windows_lookup.
    destruct (da_axes da !! k) as [a|]; [|done]. simpl.
    rewrite py_slice_full. by destruct a.
  - intros idx Hlen. unfold window. cbn [da_values]. f_equal.
    apply list_eq. intros k.
    rewrite lookup_zip_with, full_windows_lookup.
    destruct (idx !! k) as [n|] eqn:Hn.
    + assert (k < length (da_axes da)) as Hk
        by (rewrite <- Hlen; by eapply lookup_lt_Some).
      apply lookup_lt_is_Some in Hk as [a Ha]. by rewrite Ha.
    + by destruct (da_axes da !! k).
Qed.

(** Cutting an axis that the window still keeps whole gives the window
    with that axis cut. *)
Lemma is_window_isel da' da ws i a s t :
  is_window da' da ws ->
  da_axes da !! i = Some a ->
  ws !! i = Some (0, length (ax_coords a)) ->
  is_window (XR.isel da' i s t) da (<[i := (s, t)]> ws).
Proof.
  intros (Hlen & Hname & Haxes & Hvals) Ha Hw.
  split; [by rewrite length_insert|]. split; [done|]. split.
  - unfold XR.isel, window in *. cbn [da_axes] in *. rewrite Haxes.
    apply list_eq. intros k. rewrite lookup_zip_with.
    destruct (decide (k = i)) as [->|Hne].
    + rewrite list_lookup_alter_eq, lookup_zip_with, Ha, Hw.
      rewrite list_lookup_insert_eq by (by eapply lookup_lt_Some).
      simpl. by rewrite py_slice_of_full.
    + rewrite list_lookup_alter_ne, lookup_zip_with by done.
      by rewrite list_lookup_insert_ne.
  - intros idx Hidx. unfold XR.isel. cbn [da_values].
    rewrite Hvals by (by rewrite length_alter).
    unfold window. cbn [da_values]. f_equal.
    apply list_eq. intros k. rewrite !lookup_zip_with.
    destruct (decide (k = i)) as [->|Hne].
    + rewrite list_lookup_alter_eq, Hw.
      rewrite list_lookup_insert_eq by (by eapply lookup_lt_Some).
      simpl. by destruct (idx !! i).
    + rewrite list_lookup_alter_ne by done.
      by rewrite list_lookup_insert_ne.
Qed.

(** X14: what [subset_domain] returns is always a rectangular window of
    the field, sorted axes or not: the name is kept; every axis keeps its
    name and a run of consecutive labels of the field's axis; an axis
    whose name is neither of the two given is kept whole; and every
    sample of the result is the sample of the field at the position
    shifted by the start of the window. *)
Theorem X14_subset_domain_returns_a_window
  (da da_sub : DataArray) (lat_bounds lon_bounds : Q * Q)
  (lat_name lon_name : string) :
  subset_domain da lat_bounds lon_bounds lat_name lon_name = Ok da_sub ->
  exists ws,
    is_window da_sub da ws
    /\ forall k a,
         da_axes da !! k = Some a ->
         ax_name a <> lat_name -> ax_name a <> lon_name ->
         ws !! k = Some (0, length (ax_coords a)).
Proof.
  intros Hsub.
  destruct lat_bounds as [lat_min lat_max], lon_bounds as [lon_min lon_max].
  unfold subset_domain in Hsub. rewrite dict_literal_two in Hsub.
  destruct (decide (lat_name = lon_name)) as [Heq|Hne].
  - rewrite sel_single in Hsub.
    apply sel_one_inv in Hsub as (i & a & s & t & Hf & _ & ->).
    apply find_axis_lookup in Hf as [Hi Hn].
    exists (<[i := (s, t)]> (full_windows da)). split.
    + apply (is_window_isel _ _ _ _ a); [apply is_window_full|done|].
      by rewrite full_windows_lookup, Hi.
    + intros k b Hk Hb _.
      rewrite list_lookup_insert_ne by congruence.
      by rewrite full_windows_lookup, Hk.
  - cbn [XR.sel] in Hsub.
    destruct (XR.sel_one da lat_name (lat_min, lat_max)) as [da1|] eqn:H1;
      [|done].
    cbn [rbind] in Hsub.
    destruct (XR.sel_one da1 lon_name (lon_min, lon_max)) as [da2|] eqn:H2;
      [|done].
    simpl in Hsub. injection Hsub as <-.
    apply sel_one_inv in H1 as (i & a & s1 & t1 & Hfi & _ & ->).
    apply sel_one_inv in H2 as (j & a2 & s2 & t2 & Hfj & _ & ->).
    assert (Hfi' : XR.find_axis lat_name (da_axes (XR.isel da i s1 t1))
                   = Some (i, Axis (ax_name a) (ax_dtype a) (py_slice s1 t1 (ax_coords a)))).
    { rewrite find_axis_isel, Hfi. by destruct (decide (i = i)). }
    pose proof (find_axis_distinct _ _ _ _ _ _ _ Hne Hfi' Hfj) as Hij.
    rewrite find_axis_isel in Hfj.
    destruct (XR.find_axis lon_name (da_axes da)) as [[j' aj]|] eqn:Hfj0;
      [|done].
    injection Hfj as -> _.
    apply find_axis_lookup in Hfi as [Hi Hni], Hfj0 as [Hj Hnj].
    exists (<[j := (s2, t2)]> (<[i := (s1, t1)]> (full_windows da))). split.
    + apply (is_window_isel _ _ _ _ aj); [|done|].
      * apply (is_window_isel _ _ _ _ a); [apply is_window_full|done|].
        by rewrite full_windows_lookup, Hi.
      * rewrite list_lookup_insert_ne by done.
        by rewrite full_windows_lookup, Hj.
    + intros k b Hk Hb1 Hb2.
      rewrite !list_lookup_insert_ne by congruence.
      by rewrite full_windows_lookup, Hk.
Qed.

Lemma X14_witness_unsorted_field :
  exists ws,
    is_window (XR.isel (XR.isel Examples.unsorted_field 0 0 3) 1 1 3)
              Examples.unsorted_field ws
    /\ forall k a,
         da_axes Examples.unsorted_field !! k = Some a ->
         ax_name a <> "y" -> ax_name a <> "x" ->
         ws !! k = Some (0, length (ax_coords a)).
Proof.
  apply (X14_subset_domain_returns_a_window
           Examples.unsorted_field
           (XR.isel (XR.isel Examples.unsorted_field 0 0 3) 1 1 3)
           (1, 2)%Q (-85, -75)%Q "y" "x").
  reflexivity.
Defined.

(** ** The Renderer: the figure of a call *)

Lemma plt_show_returns show_backend w :
  plt_show show_backend w = (Ok tt, snd (plt_show show_backend w)).
Proof.
  unfold plt_show.
  by destruct (show_backend (figures w) (io_of w)) as [[? ?] ?].
Qed.

(** X15: a call of [plot_goes_scene] that raises leaves its figure open.
    Whatever raised (a drawing call, the creation of the directory, the
    rendering, the opening of the file), the figure the call created is
    registered after the figures that were open, and nothing has been
    shown or printed. *)
Theorem X15_failing_plot_leaves_its_figure_open
  draw_call render show_backend da extent cmap title flight_track save_path
  show (w w' : world) (e : exn) :
  plot_goes_scene draw_call render show_backend da extent cmap title
    flight_track save_path show w = (Err e, w') ->
  figures w' = figures w ++ [fresh_fig w]
  /\ (fresh_fig w ∉ figures w)
  /\ shown w' = shown w
  /\ stdout w' = stdout w.
Proof.
  rewrite plot_goes_scene_run. unfold scene_outcome. intros H.
  assert (Hw : exists io, w' = set_io io (figure_opened w)).
  { destruct (draw_all draw_call []
                (scene_cmds da extent cmap title flight_track) (io_of w))
      as [[e0|] io1]; [injection H as _ <-; by eexists|].
    cbv zeta in H. destruct save_path as [p|]; [|done].
    destruct (FS.mkdir_p (io_fs io1) (FS.parent p)) as [f1|];
      [|injection H as _ <-; by eexists].
    destruct (render (scene_figure w da extent cmap title flight_track)
                (FS.str (savefig_target p)) 150%Z
                (EngineIO f1 (io_requests io1))) as [[img|] io2];
      [|injection H as _ <-; by exists io2].
    destruct (FS.open_wb (io_fs io2) (savefig_target p)) as [[k f3]|]; [done|].
    injection H as _ <-. by exists io2. }
  pose proof (fresh_fig_not_open w).
  destruct Hw as [io ->]. by repeat split.
Qed.

(** X17: the code closes the figure exactly when it does not show it.
    After a call that returns normally, with or without a save path: with
    [show=False] the figures open are those open before the call and
    nothing has been shown; with [show=True] the code does not close the
    figure: [plt.show()] is called with the figure of the call open, after
    the others, and what is open and what has been shown afterwards is
    what the backend leaves. *)
Theorem X17_plot_closes_unless_shown
  draw_call render show_backend da extent cmap title flight_track save_path
  show (w w' : world) :
  plot_goes_scene draw_call render show_backend da extent cmap title
    flight_track save_path show w = (Ok tt, w') ->
  if show
  then exists w2,
         figures w2 = figures w ++ [fresh_fig w]
         /\ shown w2 = shown w
         /\ plt_show show_backend w2 = (Ok tt, w')
  else figures w' = figures w /\ shown w' = shown w.
Proof.
  rewrite plot_goes_scene_run. unfold scene_outcome. intros H.
  assert (Hw : exists w2,
             w' = shown_or_closed show_backend show (fresh_fig w) w2
             /\ figures w2 = figures w ++ [fresh_fig w]
             /\ shown w2 = shown w).
  { destruct (draw_all draw_call []
                (scene_cmds da extent cmap title flight_track) (io_of w))
      as [[e0|] io1]; [done|].
    cbv zeta in H. destruct save_path as [p|].
    - destruct (FS.mkdir_p (io_fs io1) (FS.parent p)) as [f1|]; [|done].
      destruct (render (scene_figure w da extent cmap title flight_track)
                  (FS.str (savefig_target p)) 150%Z
                  (EngineIO f1 (io_requests io1))) as [[img|] io2]; [|done].
      destruct (FS.open_wb (io_fs io2) (savefig_target p)) as [[k f3]|];
        [|done].
      injection H as <-. eexists. by split.
    - injection H as <-. eexists. by split. }
  destruct Hw as (w2 & -> & Hf & Hs). unfold shown_or_closed.
  destruct show.
  - exists w2. split; [done|]. split; [done|]. apply plt_show_returns.
  - cbn [figures shown set_figures]. rewrite Hf, Hs. split; [|done].
    apply close_fresh, fresh_fig_not_open.
Qed.

(** ** The Fetcher: running a batch again *)

Lemma node_at_weaken (f f' : filesystem) k n :
  f ⊆ f' -> FS.node_at f k = Some n -> FS.node_at f' k = Some n.
Proof.
  intros Hsub. destruct k; [done|]. simpl. intros H.
  by eapply lookup_weaken.
Qed.

Lemma walk_weaken (f f' : filesystem) p : forall cur k,
  f ⊆ f' -> FS.walk f cur p = Ok k -> FS.walk f' cur p = Ok k.
Proof.
  induction p as [|c rest IH]; intros cur k Hsub; simpl; [done|].
  destruct (FS.node_at f cur) as [[|b]|] eqn:E; try discriminate.
  rewrite (node_at_weaken _ _ _ _ Hsub E). by apply IH.
Qed.

Lemma exists_weaken (f f' : filesystem) p :
  f ⊆ f' -> FS.exists_ f p = true -> FS.exists_ f' p = true.
Proof.
  intros Hsub. unfold FS.exists_, FS.stat.
  destruct (FS.walk f [] p) as [k|] eqn:Hw; [|discriminate].
  rewrite (walk_weaken _ _ _ _ _ Hsub Hw).
  destruct (FS.node_at f k) as [n|] eqn:E; [|discriminate].
  by rewrite (node_at_weaken _ _ _ _ Hsub E).
Qed.

(** A target that exists is never requested. *)
Lemma download_file_present url out_dir w :
  FS.exists_ (fs w) (target out_dir url) = true ->
  requests (snd (download_file url out_dir w)) = requests w.
Proof.
  intros He. rewrite download_file_run.
  destruct (FS.mkdir_p (fs w) out_dir) as [f1|] eqn:Hm; [|done]. cbv zeta.
  by rewrite (exists_weaken _ _ _ (mkdir_from_subseteq _ _ _ _ Hm) He).
Qed.

(** The path a call returns exists afterwards. *)
Lemma download_file_ok_exists url out_dir w p w' :
  download_file url out_dir w = (Ok p, w') -> FS.exists_ (fs w') p = true.
Proof.
  intros Hrun. pose proof (download_file_returns_target _ _ _ _ _ Hrun) as ->.
  rewrite download_file_run in Hrun.
  destruct (FS.mkdir_p (fs w) out_dir) as [f1|] eqn:Hm; [|done].
  cbv zeta in Hrun.
  destruct (FS.exists_ f1 (target out_dir url)) eqn:He.
  { by injection Hrun as <-. }
  destruct (remote w (requests w) url) as [resp|]; [|done].
  destruct (bad_status resp); [done|].
  destruct (FS.open_wb f1 (target out_dir url)) as [[k f2]|] eqn:Ho; [|done].
  destruct (resp_abort resp); [done|]. injection Hrun as <-.
  cbn [fs add_log set_fs]. rewrite (write_chunks_append _ _ _ _ _ Ho).
  destruct (write_file_effect _ _ _ _ (concat (resp_chunks resp)) Ho)
    as (_ & _ & Hst & _). by eapply stat_exists.
Qed.

Lemma attempts_successes_exist d urls w outcomes w' :
  attempts d urls w outcomes w' ->
  forall p, p ∈ successes outcomes -> FS.exists_ (fs w') p = true.
Proof.
  induction 1 as [|u us w p w1 os w2 Hd Ha IH|u us w e w1 os w2 Hd Ha IH];
    intros q Hq; simpl in Hq.
  - by apply elem_of_nil in Hq.
  - apply elem_of_cons in Hq as [->|Hq]; [|by apply IH].
    eapply exists_weaken; [by eapply attempts_subseteq|].
    by eapply download_file_ok_exists.
  - by apply IH.
Qed.

Lemma missing_in_weaken (f f' : filesystem) d urls :
  f ⊆ f' -> sublist (missing_in f' d urls) (missing_in f d urls).
Proof.
  intros Hsub. induction urls as [|u us IH]; simpl; [constructor|].
  destruct (FS.exists_ f (target d u)) eqn:E.
  - by rewrite (exists_weaken _ _ _ Hsub E).
  - destruct (FS.exists_ f' (target d u)); simpl.
    + by apply sublist_cons.
    + by apply sublist_skip.
Qed.

Lemma attempts_requests_missing d urls w outcomes w' :
  attempts d urls w outcomes w' ->
  exists sent,
    sublist sent (missing_in (fs w) d urls)
    /\ requests w' = requests w ++ sent.
Proof.
  induction 1 as [|u us w p w1 os w2 Hd _ IH|u us w e w1 os w2 Hd _ IH].
  - exists []. split; [constructor|by rewrite app_nil_r].
  - destruct IH as (sent & Hs & Hr).
    pose proof (download_file_subseteq u d w) as Hsub.
    rewrite Hd in Hsub. cbn [snd] in Hsub.
    pose proof (missing_in_weaken _ _ d us Hsub) as Hmw.
    cbn [missing_in List.filter]. fold (missing_in (fs w) d us).
    destruct (FS.exists_ (fs w) (target d u)) eqn:E; cbn [negb].
    + pose proof (download_file_present u d w E) as H.
      rewrite Hd in H. cbn [snd] in H. rewrite H in Hr.
      exists sent. split; [by etrans|done].
    + destruct (download_file_requests u d w) as [H|H]; rewrite Hd in H;
        cbn [snd] in H; rewrite H in Hr.
      * exists sent. split; [apply sublist_cons; by etrans|done].
      * exists (u :: sent). split; [apply sublist_skip; by etrans|].
        by rewrite Hr, <- app_assoc.
  - destruct IH as (sent & Hs & Hr). cbn [requests fs add_log] in Hr, Hs.
    pose proof (download_file_subseteq u d w) as Hsub.
    rewrite Hd in Hsub. cbn [snd] in Hsub.
    pose proof (missing_in_weaken _ _ d us Hsub) as Hmw.
    cbn [missing_in List.filter]. fold (missing_in (fs w) d us).
    destruct (FS.exists_ (fs w) (target d u)) eqn:E; cbn [negb].
    + pose proof (download_file_present u d w E) as H.
      rewrite Hd in H. cbn [snd] in H. rewrite H in Hr.
      exists sent. split; [by etrans|done].
    + destruct (download_file_requests u d w) as [H|H]; rewrite Hd in H;
        cbn [snd] in H; rewrite H in Hr.
      * exists sent. split; [apply sublist_cons; by etrans|done].
      * exists (u :: sent). split; [apply sublist_skip; by etrans|].
        by rewrite Hr, <- app_assoc.
Qed.

(** X18: a batch can be resumed.  When [download_many] has returned the
    list [results], a second run, over any list [urls'] and the same
    directory, sends no GET for a URL whose target is among [results]:
    what it requests is a sublist of the URLs of [urls'] that the first
    run did not obtain. *)
Theorem X18_download_many_resumes
  (urls urls' : list string) (out_dir : Path) (w w1 : world)
  (results : list Path) :
  download_many urls out_dir w = (Ok results, w1) ->
  exists sent,
    sublist sent
      (List.filter (fun u => bool_decide (target out_dir u ∉ results)) urls')
    /\ requests (snd (download_many urls' out_dir w1)) = requests w1 ++ sent.
Proof.
  intros Hrun.
  destruct (download_many_loop out_dir urls [] w) as (os & w1' & Hf & Ha).
  unfold download_many in Hrun. unfold bind at 1 in Hrun.
  rewrite Hf in Hrun. unfold ret in Hrun.
  injection Hrun as <- <-. cbn [app].
  pose proof (attempts_successes_exist _ _ _ _ _ Ha) as Hex.
  destruct (download_many_loop out_dir urls' [] w1') as (os' & w2 & Hf' & Ha').
  unfold download_many, bind at 1. rewrite Hf'. unfold ret. cbn [snd].
  destruct (attempts_requests_missing _ _ _ _ _ Ha') as (sent & Hs & Hr).
  exists sent. split; [|exact Hr].
  etrans; [exact Hs|]. clear -Hex.
  induction urls' as [|u us IH]; simpl; [constructor|].
  destruct (FS.exists_ (fs w1') (target out_dir u)) eqn:E; cbn [negb].
  - destruct (bool_decide (target out_dir u ∉ successes os));
      [by apply sublist_cons|done].
  - rewrite bool_decide_true; [by apply sublist_skip|].
    intros Hin. apply Hex in Hin. congruence.
Qed.

(** A batch of three URLs, the second answered with 404, then the same
    batch again: only the second URL can be requested again. *)
Lemma X18_witness_second_batch :
  exists sent,
    sublist sent ["https://host/goes/missing.nc"]
    /\ requests
         (snd (download_many
                 ["https://host/goes/a.nc"; "https://host/goes/missing.nc";
                  "https://host/goes/b.nc"] ["data"]
                 (snd (download_many
                         ["https://host/goes/a.nc";
                          "https://host/goes/missing.nc";
                          "https://host/goes/b.nc"] ["data"]
                         Examples.empty_world))))
       = ["https://host/goes/a.nc"; "https://host/goes/missing.nc";
          "https://host/goes/b.nc"] ++ sent.
Proof.
  destruct (X18_download_many_resumes
              ["https://host/goes/a.nc"; "https://host/goes/missing.nc";
               "https://host/goes/b.nc"]
              ["https://host/goes/a.nc"; "https://host/goes/missing.nc";
               "https://host/goes/b.nc"]
              ["data"] Examples.empty_world
              (snd (download_many
                      ["https://host/goes/a.nc"; "https://host/goes/missing.nc";
                       "https://host/goes/b.nc"] ["data"] Examples.empty_world))
              [["data"; "a.nc"]; ["data"; "b.nc"]])
    as (sent & Hs & Hr); [vm_compute; reflexivity|].
  exists sent. split.
  - assert (E : List.filter
                  (fun u => bool_decide
                              (target ["data"] u
                               ∉ [["data"; "a.nc"]; ["data"; "b.nc"]]))
                  ["https://host/goes/a.nc"; "https://host/goes/missing.nc";
                   "https://host/goes/b.nc"]
                = ["https://host/goes/missing.nc"])
      by (vm_compute; reflexivity).
    rewrite E in Hs. exact Hs.
  - rewrite Hr. f_equal.
Defined.

(** ** The Scene Preparer: subsetting in two steps *)













(** ** The extra properties at concrete inputs *)

(** On an empty file system [data/a.nc] is created with the three bytes
    the remote end streams. *)
Lemma X1_witness_first_download :
  exists w',
    download_file "https://host/goes/a.nc" ["data"] Examples.empty_world
    = (Ok ["data"; "a.nc"], w')
    /\ requests w' = ["https://host/goes/a.nc"]
    /\ FS.stat (fs w') ["data"; "a.nc"]
       = Some (File [Byte.x01; Byte.x02; Byte.x03]).
Proof.
  destruct (X1_download_file_writes_the_body
              "https://host/goes/a.nc" ["data"] Examples.empty_world
              (<[ ["data"] := Dir true ]> ∅)
              (<[ ["data"; "a.nc"] := File [] ]>
                 (<[ ["data"] := Dir true ]> ∅))
              (Response 200 [[Byte.x01; Byte.x02]; []; [Byte.x03]] None)
              ["data"; "a.nc"])
    as (w' & Hrun & Hreq & Hst & _);
    [reflexivity|reflexivity|reflexivity|reflexivity|reflexivity|].
  exists w'. split; [exact Hrun|]. split; [exact Hreq|exact Hst].
Defined.

(** The URL answered with 404: [data] is made, the GET is sent, and no
    [missing.nc] appears. *)
Lemma X2_witness_not_found :
  exists w',
    download_file "https://host/goes/missing.nc" ["data"] Examples.empty_world
    = (Err (Raise HTTPError "https://host/goes/missing.nc"), w')
    /\ requests w' = ["https://host/goes/missing.nc"]
    /\ fs w' = <[ ["data"] := Dir true ]> ∅
    /\ FS.exists_ (fs w') ["data"; "missing.nc"] = false.
Proof.
  destruct (X2_failed_request_creates_no_file
              "https://host/goes/missing.nc" ["data"] Examples.empty_world
              (<[ ["data"] := Dir true ]> ∅)
              (Raise HTTPError "https://host/goes/missing.nc"))
    as (w' & Hrun & Hreq & Hfs & Hex);
    [reflexivity|reflexivity|reflexivity|].
  exists w'. split; [exact Hrun|]. split; [exact Hreq|].
  split; [exact Hfs|exact Hex].
Defined.

(** The connection drops after two bytes: the two bytes stay in
    [data/a.nc], and the next call returns that file without a GET. *)
Lemma X3_witness_connection_reset :
  exists w',
    download_file "https://host/goes/a.nc" ["data"] Outage.empty_world
    = (Err (Raise RequestException "connection reset"), w')
    /\ FS.stat (fs w') ["data"; "a.nc"] = Some (File [Byte.x01; Byte.x02])
    /\ exists w'',
         download_file "https://host/goes/a.nc" ["data"] w'
         = (Ok ["data"; "a.nc"], w'')
         /\ requests w'' = requests w'
         /\ fs w'' = fs w'.
Proof.
  destruct (X3_interrupted_download_is_kept
              "https://host/goes/a.nc" ["data"] Outage.empty_world
              (<[ ["data"] := Dir true ]> ∅)
              (<[ ["data"; "a.nc"] := File [] ]>
                 (<[ ["data"] := Dir true ]> ∅))
              (Response 200 [[Byte.x01; Byte.x02]]
                 (Some (Raise RequestException "connection reset")))
              ["data"; "a.nc"]
              (Raise RequestException "connection reset"))
    as (w' & Hrun & Hst & w'' & Hrun2 & Hreq & Hfs);
    [reflexivity|reflexivity|reflexivity|reflexivity|reflexivity|].
  exists w'. split; [exact Hrun|]. split; [exact Hst|].
  exists w''. split; [exact Hrun2|]. split; [exact Hreq|exact Hfs].
Defined.

(** A first download on an empty file system, then the same call again. *)
Lemma X4_witness_second_call :
  exists w'',
    download_file "https://host/goes/a.nc" ["data"]
      (snd (download_file "https://host/goes/a.nc" ["data"]
              Examples.empty_world))
    = (Ok ["data"; "a.nc"], w'')
    /\ requests w'' = ["https://host/goes/a.nc"]
    /\ FS.stat (fs w'') ["data"; "a.nc"]
       = Some (File [Byte.x01; Byte.x02; Byte.x03]).
Proof.
  destruct (X4_download_file_twice
              "https://host/goes/a.nc" ["data"] Examples.empty_world
              (snd (download_file "https://host/goes/a.nc" ["data"]
                      Examples.empty_world))
              ["data"; "a.nc"])
    as (w'' & Hrun & Hreq & Hfs & _); [reflexivity|].
  exists w''. split; [exact Hrun|].
  split; [rewrite Hreq; reflexivity|rewrite Hfs; reflexivity].
Defined.

(** [data/raw] on an empty file system: both levels are made, and a
    second call changes nothing. *)
Lemma X7_witness_nested_dir :
  FS.is_dir (fs (snd (ensure_dir ["data"; "raw"] Examples.empty_world)))
    ["data"; "raw"] = true
  /\ ensure_dir ["data"; "raw"]
       (snd (ensure_dir ["data"; "raw"] Examples.empty_world))
     = (Ok ["data"; "raw"],
        snd (ensure_dir ["data"; "raw"] Examples.empty_world)).
Proof.
  destruct (X7_ensure_dir_twice ["data"; "raw"] ["data"; "raw"]
              Examples.empty_world
              (snd (ensure_dir ["data"; "raw"] Examples.empty_world)))
    as (_ & Hdir & _ & Hagain); [reflexivity|].
  split; [exact Hdir|exact Hagain].
Defined.

(** Saving under the directory that may not be written raises, and the
    figure numbered 1 stays open. *)
Lemma X15_witness_readonly_save :
  exists e w',
    plot_goes_scene Examples.draw_anything Examples.render_stub
      Examples.show_nothing Examples.scene_field None "turbo" None None
      (Some ["ro"; "figs"; "scene.png"]) false Examples.readonly_world
    = (Err e, w')
    /\ figures w' = [1].
Proof.
  assert (Hrun :
    plot_goes_scene Examples.draw_anything Examples.render_stub
      Examples.show_nothing Examples.scene_field None "turbo" None None
      (Some ["ro"; "figs"; "scene.png"]) false Examples.readonly_world
    = (Err (Raise PermissionError "ro/figs"),
       snd (plot_goes_scene Examples.draw_anything Examples.render_stub
              Examples.show_nothing Examples.scene_field None "turbo" None
              None (Some ["ro"; "figs"; "scene.png"]) false
              Examples.readonly_world))) by (by vm_compute).
  destruct (X15_failing_plot_leaves_its_figure_open _ _ _ _ _ _ _ _ _ _ _ _ _
              Hrun) as (Hfig & _).
  eexists _, _. split; [exact Hrun|exact Hfig].
Defined.

(** Shown and not saved, under an inline backend: [plt.show()] is called
    with the figure numbered 1 open and nothing shown yet. *)
Lemma X17_witness_shown_scene :
  exists w2,
    figures w2 = [1] /\ shown w2 = []
    /\ plt_show Examples.show_inline w2
       = (Ok tt,
          snd (plot_goes_scene Examples.draw_anything Examples.render_stub
                 Examples.show_inline Examples.scene_field None "turbo" None
                 None None true Examples.empty_world)).
Proof.
  destruct (X17_plot_closes_unless_shown
              Examples.draw_anything Examples.render_stub Examples.show_inline
              Examples.scene_field None "turbo" None None None true
              Examples.empty_world
              (snd (plot_goes_scene Examples.draw_anything
                      Examples.render_stub Examples.show_inline
                      Examples.scene_field None "turbo" None None None true
                      Examples.empty_world)))
    as (w2 & Hf & Hs & Hshow); [by vm_compute|].
  exists w2. split; [exact Hf|]. split; [exact Hs|exact Hshow].
Defined.
